(** * Zoning-violation detection: a shallow embedding of [code.py]

    The script is a straight-line batch pipeline.  Each step is embedded
    as a function from the values the step reads to the value it binds;
    a Python exception is an explicit [Raise] result.  Numbers are IEEE
    binary64 values ([float] of the kernel), as numpy and Python have them. *)

From Stdlib Require Import ZArith Lia List Bool Ascii String.
From Stdlib Require Import Floats.
From stdpp Require Import gmap strings list fin_maps.

Local Open Scope Z_scope.

(** ** Numbers *)

Module Num.

(** The constants of STEP 1. *)
Definition f10_5 : float := 10.5%float.
Definition f5_0 : float := 5%float.

(** numpy's and Python's [a < b], [a > b], [a == b] on float64. *)
Definition lt (a b : float) : bool := PrimFloat.ltb a b.
Definition gt (a b : float) : bool := PrimFloat.ltb b a.
Definition eq (a b : float) : bool := PrimFloat.eqb a b.

(** Python's [float(n)] for an [int]: the nearest binary64 value. *)
Definition of_Z (n : Z) : float :=
  SF2Prim (binary_normalize prec emax n 0 false).

(** A value that is neither NaN nor an infinity. *)
Definition finite (a : float) : bool :=
  match Prim2SF a with
  | S754_zero _ | S754_finite _ _ _ => true
  | S754_infinity _ | S754_nan => false
  end.

End Num.

(** ** STEP 5: the height map *)

Module Raster.

(** A clipped band: rows of float64 pixels. *)
Definition array := list (list float).

(** [height_map[height_map < 0] = 0] on one pixel. *)
Definition clean (h : float) : float :=
  if Num.lt h 0%float then 0%float else h.

(** One pixel of [dsm_array - resampled_dtm], cleaned. *)
Definition height_px (s t : float) : float := clean (s - t)%float.

Fixpoint zip_row (f : float -> float -> float) (r1 r2 : list float)
  : list float :=
  match r1, r2 with
  | a :: r1', b :: r2' => f a b :: zip_row f r1' r2'
  | _, _ => []
  end.

Fixpoint zip_rows (f : float -> float -> float) (a1 a2 : array) : array :=
  match a1, a2 with
  | r1 :: a1', r2 :: a2' => zip_row f r1 r2 :: zip_rows f a1' a2'
  | _, _ => []
  end.

(** [resampled_dtm = np.empty_like(dsm_array)]: both arrays have one
    shape, so the elementwise difference is the pixelwise zip. *)
Definition height_map (dsm_array resampled_dtm : array) : array :=
  zip_rows height_px dsm_array resampled_dtm.

(** Pixel [(i, j)] of an array. *)
Definition px (a : array) (i j : nat) : option float :=
  match nth_error a i with
  | Some r => nth_error r j
  | None => None
  end.

(** [dsm_array == resampled_dtm] holds at every pixel. *)
Definition equal_everywhere (a1 a2 : array) : Prop :=
  Forall2 (Forall2 (fun s t => Num.eq s t = true)) a1 a2.

(** Every pixel satisfies [p]. *)
Definition all_px (p : float -> Prop) (a : array) : Prop :=
  Forall (Forall p) a.

Definition all_zeros : array -> Prop :=
  all_px (fun h => Num.eq h 0%float = true).

Definition never_negative : array -> Prop :=
  all_px (fun h => Num.lt h 0%float = false).

Definition all_finite : array -> Prop :=
  all_px (fun s => Num.finite s = true).

End Raster.

(** ** STEP 11: the violation label *)

(** The four values of the [violation_type] column. *)
Inductive violation_label := VNone | Height | Boundary | Both.

(** [classify_violation(row)], reading [row["violation"]] and
    [row["boundary_violation"]]. *)
Definition classify_violation (violation boundary_violation : bool)
  : violation_label :=
  if violation && boundary_violation then Both
  else if violation then Height
  else if boundary_violation then Boundary
  else VNone.

(** The string the Python function returns. *)
Definition label (v : violation_label) : string :=
  match v with
  | VNone => "None"
  | Height => "Height"
  | Boundary => "Boundary"
  | Both => "Both"
  end.

(** ** Python results *)

Inductive exn := ValueError | IndexError | GEOSException.

(** The outcome of running a piece of the script: a value, or the
    exception that ends the run (the script has no [try]). *)
Inductive result (A : Type) :=
| Ok (a : A)
| Raise (e : exn).
Arguments Ok {A} a.
Arguments Raise {A} e.

Definition bind {A B} (r : result A) (k : A -> result B) : result B :=
  match r with
  | Ok a => k a
  | Raise e => Raise e
  end.

#[global] Instance result_bind : MBind result :=
  fun A B k r => bind r k.
#[global] Instance result_ret : MRet result := @Ok.

(** A [for] loop that appends one value per item and stops at the first
    exception. *)
Fixpoint for_each {A B} (f : A -> result B) (l : list A) : result (list B) :=
  match l with
  | [] => Ok []
  | a :: l' => b ← f a; bs ← for_each f l'; Ok (b :: bs)
  end.

(** A Python object as the script handles it in [est_height]. *)
Inductive pyval :=
| PyNone
| PyInt (n : Z)
| PyFloat (x : float).

(** ** STEP 6: building footprints from the OSM export *)

Definition coord : Type := float * float.

(** An element of [data["elements"]].  [Node] and [Way] carry the keys the
    script reads; [tags] is absent on untagged ways ([el.get("tags", {})]).
    Elements of any other [type] are skipped by both loops. *)
Inductive element :=
| Node (id : Z) (lon lat : float)
| Way (nodes : list Z) (tags : option (gmap string string))
| Other.

(** [node_map]: a dict comprehension, later ids overwrite earlier ones. *)
Definition node_map (elements : list element) : gmap Z coord :=
  foldl (fun (m : gmap Z coord) el =>
           match el with
           | Node id lon lat => <[id := (lon, lat)]> m
           | _ => m
           end) ∅ elements.

(** [coords = [node_map[nid] for nid in nodes if nid in node_map]] *)
Definition coords (nm : gmap Z coord) (nodes : list Z) : list coord :=
  omap (fun nid => nm !! nid) nodes.

(** shapely's [Polygon(coords)], as the exterior ring it stores.  The ring
    is closed by repeating the first coordinate when first and last differ
    (compared as floats, per ordinate).  A ring of fewer than 4 coordinates
    after closing is refused with [ValueError], and GEOS refuses a ring
    whose ends still differ (a NaN ordinate). *)
Definition polygon : Type := list coord.

Definition coord_differ (a b : coord) : bool :=
  negb (Num.eq a.1 b.1) || negb (Num.eq a.2 b.2).

Definition ring_closure (cs : list coord) : bool :=
  match cs, last cs with
  | c :: _, Some d => coord_differ c d
  | _, _ => false
  end.

Definition close_ring (cs : list coord) : polygon :=
  if ring_closure cs then cs ++ take 1 cs else cs.

Definition Polygon (cs : list coord) : result polygon :=
  let ring := close_ring cs in
  if (length ring <? 4)%nat then Raise ValueError
  else if ring_closure ring then Raise GEOSException
  else Ok ring.

(** A ring is closed when its last coordinate equals its first. *)
Definition closed (g : polygon) : Prop :=
  exists c d, head g = Some c /\ last g = Some d /\ coord_differ c d = false.

(** A ring has three pairwise different vertices. *)
Definition three_distinct (g : polygon) : Prop :=
  exists a b c, a ∈ g /\ b ∈ g /\ c ∈ g /\ a <> b /\ b <> c /\ a <> c.

(** One dict appended to [features]. *)
Record feature := Feature {
  geometry : polygon;
  height : pyval;
  name : string;
  levels : option string
}.

(** Truth value of [tags.get(k)]: [None] and the empty string are false. *)
Definition truthy (v : option string) : bool :=
  match v with
  | Some s => negb (String.eqb s "")
  | None => false
  end.

Section Footprints.

(** Python's [float(s)] and [int(s)] on a string: [None] stands for the
    [ValueError] they raise on text that does not parse. *)
Variable py_float : string -> option float.
Variable py_int : string -> option Z.

Definition float_of (s : string) : result pyval :=
  match py_float s with
  | Some x => Ok (PyFloat x)
  | None => Raise ValueError
  end.

Definition int_times_3 (s : string) : result pyval :=
  match py_int s with
  | Some n => Ok (PyInt (n * 3))
  | None => Raise ValueError
  end.

(** [float(height) if height else (int(levels) * 3 if levels else None)] *)
Definition est_height (tags : gmap string string) : result pyval :=
  let levels := tags !! "building:levels" in
  let height := tags !! "height" in
  if truthy height then float_of (default "" height)
  else if truthy levels then int_times_3 (default "" levels)
  else Ok PyNone.

(** The precedence rule in the words of the specification: a tag counts
    when it is present and parses, and the next case applies otherwise. *)
Definition stated_height (tags : gmap string string) : pyval :=
  match tags !! "height" ≫= py_float with
  | Some x => PyFloat x
  | None =>
      match tags !! "building:levels" ≫= py_int with
      | Some n => PyFloat (Num.of_Z n * 3)%float
      | None => PyNone
      end
  end.

(** A tag that the conditional expression takes: present and not the
    empty string. *)
Definition given (tags : gmap string string) (k s : string) : Prop :=
  tags !! k = Some s /\ s <> EmptyString.

Definition not_given (tags : gmap string string) (k : string) : Prop :=
  tags !! k = None \/ tags !! k = Some EmptyString.

(** The rule the expression implements, outcome by outcome. *)
Inductive height_rule (tags : gmap string string) : result pyval -> Prop :=
| rule_height s x :
    given tags "height" s -> py_float s = Some x ->
    height_rule tags (Ok (PyFloat x))
| rule_height_unparsable s :
    given tags "height" s -> py_float s = None ->
    height_rule tags (Raise ValueError)
| rule_levels s n :
    not_given tags "height" ->
    given tags "building:levels" s -> py_int s = Some n ->
    height_rule tags (Ok (PyInt (n * 3)))
| rule_levels_unparsable s :
    not_given tags "height" ->
    given tags "building:levels" s -> py_int s = None ->
    height_rule tags (Raise ValueError)
| rule_unknown :
    not_given tags "height" -> not_given tags "building:levels" ->
    height_rule tags (Ok PyNone).

(** The body of the loop for one element: the features it appends. *)
Definition way_features (nm : gmap Z coord) (el : element)
  : result (list feature) :=
  match el with
  | Way nodes (Some tags) =>
      if decide (is_Some (tags !! "building")) then
        let cs := coords nm nodes in
        if (3 <=? length cs)%nat then
          geom ← Polygon cs;
          h ← est_height tags;
          Ok [ {| geometry := geom;
                  height := h;
                  name := default "" (tags !! "name");
                  levels := tags !! "building:levels" |} ]
        else Ok []
      else Ok []
  | _ => Ok []
  end.

(** What one appended feature records about its way. *)
Definition built_from (nm : gmap Z coord) (el : element) (f : feature)
  : Prop :=
  exists nodes tags,
    el = Way nodes (Some tags)
    /\ is_Some (tags !! "building")
    /\ (3 <= length (coords nm nodes))%nat
    /\ Polygon (coords nm nodes) = Ok (geometry f)
    /\ est_height tags = Ok (height f).

(** [features] after the loop over [data["elements"]]. *)
Definition features (elements : list element) : result (list feature) :=
  fs ← for_each (way_features (node_map elements)) elements;
  Ok (concat fs).

End Footprints.

(** ** STEPS 1 and 7-11: zoning parcels, join and classification *)

(** The [height] column against a limit, [height > Max Height]: a missing
    value compares false, an [int] is compared as the float64 it is stored
    as. *)
Definition column_value (h : pyval) : option float :=
  match h with
  | PyNone => None
  | PyInt n => Some (Num.of_Z n)
  | PyFloat x => Some x
  end.

Definition gt_column (h : pyval) (limit : float) : bool :=
  match column_value h with
  | Some x => Num.gt x limit
  | None => false
  end.

Section Zoning.

(** The geometry library behind the script: parcel geometries are its
    objects, [within] is shapely's predicate with a building polygon on
    the left, [buffer] its buffer, and the four maps are the
    reprojections that [to_crs] performs. *)
Context {geom : Type}.
Variable within : polygon -> geom -> bool.
Variable buffer : geom -> float -> geom.
Variable file_to_dsm : geom -> geom.
Variable wgs_to_dsm : coord -> coord.
Variable dsm_to_utm : geom -> geom.
Variable utm_to_dsm : geom -> geom.

Variable py_float : string -> option float.
Variable py_int : string -> option Z.

(** A row of the shapefile as [read_file] returns it; the two attributes
    may or may not be columns of the file already. *)
Record raw_parcel := RawParcel {
  raw_geometry : geom;
  raw_max_height : option pyval;
  raw_setback : option pyval
}.

(** A row of [zones]; [index] is its label in the frame's RangeIndex. *)
Record parcel := Parcel {
  index : nat;
  zone_geometry : geom;
  max_height : float;
  setback : float
}.

(** Lines 11-13: [read_file], then the two scalar column assignments. *)
Definition assign_limits (file : list raw_parcel) : list parcel :=
  imap (fun i r => {| index := i;
                      zone_geometry := raw_geometry r;
                      max_height := Num.f10_5;
                      setback := Num.f5_0 |}) file.

(** [zones.to_crs(...)]: the geometry column is mapped, the rest kept. *)
Definition to_crs (f : geom -> geom) (zs : list parcel) : list parcel :=
  map (fun z => {| index := index z;
                   zone_geometry := f (zone_geometry z);
                   max_height := max_height z;
                   setback := setback z |}) zs.

(** [zones] as STEP 7 and STEP 8 read it. *)
Definition zones (file : list raw_parcel) : list parcel :=
  to_crs file_to_dsm (assign_limits file).

(** The rows of [buildings_gdf]: the features under a RangeIndex,
    reprojected vertex by vertex. *)
Definition reproject_feature (f : feature) : feature :=
  {| geometry := map wgs_to_dsm (geometry f);
     height := height f;
     name := name f;
     levels := levels f |}.

Definition building_rows (fs : list feature) : list (nat * feature) :=
  imap (fun i f => (i, reproject_feature f)) fs.

(** [gpd.GeoDataFrame(features, crs="EPSG:4326")] and [to_crs]: a frame
    built from no dict has no geometry column, which the constructor
    refuses when it is given a CRS. *)
Definition buildings_gdf (fs : list feature) : result (list (nat * feature)) :=
  match fs with
  | [] => Raise ValueError
  | _ => Ok (building_rows fs)
  end.

(** A row of [buildings_within]: the building's row and label, then
    [index_right] and the parcel's attribute columns. *)
Record join_row := JoinRow {
  left_index : nat;
  building : feature;
  index_right : nat;
  row_max_height : float;
  row_setback : float
}.

Definition join (b : nat * feature) (z : parcel) : join_row :=
  {| left_index := b.1;
     building := b.2;
     index_right := index z;
     row_max_height := max_height z;
     row_setback := setback z |}.

(** [gpd.sjoin(buildings_gdf, zones, predicate="within", how="inner")]:
    one row per pair of a building and a parcel it is within, ordered by
    building and then by parcel. *)
Definition matches (b : nat * feature) (zs : list parcel) : list parcel :=
  List.filter (fun z => within (geometry b.2) (zone_geometry z)) zs.

Definition sjoin_within (bs : list (nat * feature)) (zs : list parcel)
  : list join_row :=
  flat_map (fun b => map (join b) (matches b zs)) bs.

(** STEP 8: erosion by the setback in the metric CRS, the zero-distance
    buffer, and the way back. *)
Definition buildable (z : parcel) : geom :=
  utm_to_dsm
    (buffer (buffer (dsm_to_utm (zone_geometry z)) (- setback z)%float)
            0%float).

(** A row of [zones] once the [buildable_area] column is assigned. *)
Record zoned := Zoned {
  zone : parcel;
  buildable_area : geom
}.

Definition with_buildable_area (zs : list parcel) : list zoned :=
  map (fun z => {| zone := z; buildable_area := buildable z |}) zs.

(** [zones.loc[zones.index == idx].iloc[0]] *)
Definition zone_at (zs : list zoned) (idx : nat) : result zoned :=
  match List.filter (fun z => Nat.eqb (index (zone z)) idx) zs with
  | z :: _ => Ok z
  | [] => Raise IndexError
  end.

(** STEP 9: the loop that fills [boundary_violations]. *)
Definition boundary_check (zs : list zoned) (r : join_row) : result bool :=
  z ← zone_at zs (index_right r);
  let in_buildable := within (geometry (building r)) (buildable_area z) in
  Ok (negb in_buildable).

Definition boundary_violations (zs : list zoned) (rows : list join_row)
  : result (list bool) :=
  for_each (boundary_check zs) rows.

(** A row of [buildings_within] with the three computed columns. *)
Record join_record := JoinRecord {
  joined : join_row;
  boundary_violation : bool;
  violation : bool;
  violation_type : violation_label
}.

(** STEPS 9-11 on one row, given its entry of [boundary_violations]. *)
Definition decorate (r : join_row) (bv : bool) : join_record :=
  let v := gt_column (height (building r)) (row_max_height r) in
  {| joined := r;
     boundary_violation := bv;
     violation := v;
     violation_type := classify_violation v bv |}.

(** Lines 70-111 from the features and the parcel file. *)
Definition classify_buildings (file : list raw_parcel) (fs : list feature)
  : result (list join_record) :=
  let zs := zones file in
  bs ← buildings_gdf fs;
  let buildings_within := sjoin_within bs zs in
  bvs ← boundary_violations (with_buildable_area zs) buildings_within;
  Ok (zip_with decorate buildings_within bvs).

(** The script from the parsed inputs to the decorated frame.  The raster
    steps 2-5 feed nothing into it; they are taken to return. *)
Definition pipeline (file : list raw_parcel) (elements : list element)
  : result (list join_record) :=
  fs ← features py_float py_int elements;
  classify_buildings file fs.

End Zoning.

(** ** A concrete geometry and concrete parsers, for running the model *)

Module Flat.

(** Axis-parallel rectangles in one planar, metric frame, so that every
    reprojection is the identity; [None] is the empty geometry. *)
Record box := Box { xmin : float; ymin : float; xmax : float; ymax : float }.

Definition geom : Type := option box.

Definition inside (b : box) (c : coord) : bool :=
  PrimFloat.leb (xmin b) c.1 && PrimFloat.leb c.1 (xmax b)
  && PrimFloat.leb (ymin b) c.2 && PrimFloat.leb c.2 (ymax b).

(** A polygon is within a rectangle when all its vertices are; nothing
    is within the empty geometry. *)
Definition within (p : polygon) (g : geom) : bool :=
  match g with
  | Some b => forallb (inside b) p
  | None => false
  end.

(** Growing by [d] on every side; a rectangle left without interior is
    the empty geometry. *)
Definition buffer (g : geom) (d : float) : geom :=
  match g with
  | Some b =>
      let b' := {| xmin := xmin b - d; ymin := ymin b - d;
                   xmax := xmax b + d; ymax := ymax b + d |}%float in
      if PrimFloat.ltb (xmin b') (xmax b') && PrimFloat.ltb (ymin b') (ymax b')
      then Some b' else None
  | None => None
  end.

Definition is_empty (g : geom) : bool :=
  match g with Some _ => false | None => true end.

Definition same_geom (g : geom) : geom := g.
Definition same_coord (c : coord) : coord := c.

(** Plain decimal literals, a fragment of what [int] and [float] read:
    an optional minus sign, digits, and for [float] an optional
    fraction.  Text outside the fragment used below is text that
    Python refuses as well. *)
Definition digit (a : Ascii.ascii) : option Z :=
  let n := Z.of_nat (Ascii.nat_of_ascii a) in
  if (48 <=? n) && (n <=? 57) then Some (n - 48) else None.

Fixpoint digits (acc : Z) (s : string) : option Z :=
  match s with
  | EmptyString => Some acc
  | String a s' =>
      match digit a with
      | Some d => digits (10 * acc + d) s'
      | None => None
      end
  end.

Definition unsigned (s : string) : option Z :=
  match s with
  | EmptyString => None
  | _ => digits 0 s
  end.

Definition dec_int (s : string) : option Z :=
  match s with
  | String "-"%char s' => Z.opp <$> unsigned s'
  | _ => unsigned s
  end.

(** The text before and after the first ["."]. *)
Fixpoint split_dot (s : string) : string * option string :=
  match s with
  | EmptyString => (EmptyString, None)
  | String "."%char s' => (EmptyString, Some s')
  | String a s' =>
      let '(i, f) := split_dot s' in (String a i, f)
  end.

Definition dec_unsigned_float (s : string) : option float :=
  match split_dot s with
  | (i, None) => Num.of_Z <$> unsigned i
  | (i, Some f) =>
      n ← unsigned (i +:+ f);
      Some (Num.of_Z n / Num.of_Z (10 ^ Z.of_nat (String.length f)))%float
  end.

Definition dec_float (s : string) : option float :=
  match s with
  | String "-"%char s' => PrimFloat.opp <$> dec_unsigned_float s'
  | _ => dec_unsigned_float s
  end.

(** The script over this geometry and these parsers. *)
Definition run (file : list (@raw_parcel geom)) (elements : list element)
  : result (list join_record) :=
  pipeline within buffer same_geom same_coord same_geom same_geom
           dec_float dec_int file elements.

(** A sample run.  Parcel 0 is 100 x 100 and carries limits of its own in
    the file; parcel 1 is 50 x 50 and lies inside parcel 0; parcel 2 is
    8 x 8, apart from both, narrower than twice the setback. *)
Definition sample_file : list (@raw_parcel geom) :=
  [ {| raw_geometry := Some (Box 0 0 100 100);
       raw_max_height := Some (PyInt 30);
       raw_setback := Some (PyFloat 1) |};
    {| raw_geometry := Some (Box 0 0 50 50);
       raw_max_height := None; raw_setback := None |};
    {| raw_geometry := Some (Box 200 0 208 8);
       raw_max_height := None; raw_setback := None |} ].

Definition building_tags (l : list (string * string)) : gmap string string :=
  list_to_map (("building", "yes") :: l).

(** Five footprints: one inside parcels 0 and 1, 8 m high; one inside
    parcel 0 only, 12 m high; one across the 5 m margin of parcel 0, two
    levels; one inside parcel 2, untagged; the third again, 12 m high;
    and before it a way with two resolvable nodes. *)
Definition sample_elements : list element :=
  [ Node 1 10 10; Node 2 14 10; Node 3 14 15; Node 4 10 15;
    Node 5 60 60; Node 6 64 60; Node 7 64 65; Node 8 60 65;
    Node 9 2 60; Node 10 8 60; Node 11 8 66;
    Node 12 202 2; Node 13 206 2; Node 14 206 6;
    Way [1; 2; 3; 4; 1] (Some (building_tags [("height", "8")]));
    Way [5; 6; 7; 8; 5] (Some (building_tags [("height", "12")]));
    Way [9; 10; 11; 9] (Some (building_tags [("building:levels", "2")]));
    Way [12; 13; 14; 12] (Some (building_tags []));
    Way [1; 2; 77] (Some (building_tags [("height", "40")]));
    Way [9; 10; 11; 9] (Some (building_tags [("height", "12.0")]));
    Way [1; 2; 3] None;
    Other ].

Definition sample_records : list join_record :=
  match run sample_file sample_elements with
  | Ok out => out
  | Raise _ => []
  end.

(** The columns of a record that identify and classify it. *)
Definition summary (r : join_record)
  : nat * nat * bool * bool * violation_label :=
  (left_index (joined r), index_right (joined r),
   violation r, boundary_violation r, violation_type r).

End Flat.

(** ** The loops of STEP 6 and STEP 12, piece by piece *)

(** The coordinates a node element gives to [id], if it is a node with
    that id. *)
Definition coords_of (id : Z) (el : element) : option coord :=
  match el with
  | Node i lon lat => if decide (i = id) then Some (lon, lat) else None
  | _ => None
  end.

(** The two guards of the footprint loop: a way tagged as a building,
    with at least 3 resolvable node coordinates. *)
Definition qualifies (nm : gmap Z coord) (el : element) : bool :=
  match el with
  | Way nodes (Some tags) =>
      bool_decide (is_Some (tags !! "building"))
      && (3 <=? length (coords nm nodes))%nat
  | _ => false
  end.

Section WayFeatures.

Variable py_float : string -> option float.
Variable py_int : string -> option Z.

(** What a feature holds of the way it is built from. *)
Definition feature_of_way (nm : gmap Z coord) (el : element) (f : feature)
  : Prop :=
  exists nodes tags,
    el = Way nodes (Some tags)
    /\ Polygon (coords nm nodes) = Ok (geometry f)
    /\ est_height py_float py_int tags = Ok (height f)
    /\ name f = default "" (tags !! "name")
    /\ levels f = tags !! "building:levels".

End WayFeatures.

(** The two labels of a row of the join: the building's and the
    parcel's. *)
Definition row_key (r : join_row) : nat * nat := (left_index r, index_right r).

(** [color_map] of STEP 12. *)
Definition color_map : gmap string string :=
  list_to_map [("Height", "yellow"); ("Boundary", "orange"); ("Both", "red")].

(** The arguments of one [folium.CircleMarker]. *)
Record marker := Marker {
  location : float * float;
  radius : Z;
  color : string;
  fill : bool;
  fill_opacity : float;
  popup : string
}.

(** The colour of the legend for a label. *)
Definition legend_color (v : violation_label) : string :=
  match v with
  | Height => "yellow"
  | Boundary => "orange"
  | Both => "red"
  | VNone => ""
  end.

(** A record with a label to draw. *)
Definition flagged (row : join_record) : bool :=
  match violation_type row with
  | VNone => false
  | _ => true
  end.

Section Markers.

(** shapely's [centroid] of a polygon, and the text an f-string gives
    for [row['height']]: it depends on the dtype pandas chose for the
    column, so it is taken per row. *)
Variable centroid : polygon -> coord.
Variable str_height : join_record -> string.

(** The body of the loop after the [continue]; [None] stands for the
    [KeyError] of [color_map[...]]. *)
Definition circle_marker (row : join_record) : option marker :=
  let c := centroid (geometry (building (joined row))) in
  col ← color_map !! label (violation_type row);
  Some {| location := (c.2, c.1);
          radius := 6;
          color := col;
          fill := true;
          fill_opacity := 0x1.999999999999ap-1%float;
          popup := name (building (joined row))
                   +:+ "<br>Type: " +:+ label (violation_type row)
                   +:+ "<br>Height: " +:+ str_height row
                   +:+ "m" |}.

(** The loop of lines 122-133: the markers added to the map, in row
    order. *)
Fixpoint markers (rows : list join_record) : option (list marker) :=
  match rows with
  | [] => Some []
  | row :: rows' =>
      if String.eqb (label (violation_type row)) "None" then markers rows'
      else m ← circle_marker row; ms ← markers rows'; Some (m :: ms)
  end.

(** What a marker shows of its record. *)
Definition marker_of (row : join_record) (m : marker) : Prop :=
  circle_marker row = Some m
  /\ color m = legend_color (violation_type row)
  /\ location m = ((centroid (geometry (building (joined row)))).2,
                   (centroid (geometry (building (joined row)))).1).

End Markers.

(** ** A concrete centroid and height text, for drawing the sample *)

Module Draw.

(** Twice the signed area of a ring and the sums of the area centroid,
    by the shoelace formula over consecutive vertices. *)
Fixpoint shoelace (p : polygon) : float * float * float :=
  match p with
  | a :: (b :: _) as p' =>
      let '(area2, sx, sy) := shoelace p' in
      let cross := (a.1 * b.2 - b.1 * a.2)%float in
      ((area2 + cross)%float,
       (sx + (a.1 + b.1) * cross)%float,
       (sy + (a.2 + b.2) * cross)%float)
  | _ => (0%float, 0%float, 0%float)
  end.

Definition centroid (p : polygon) : coord :=
  let '(area2, sx, sy) := shoelace p in
  ((sx / (3 * area2))%float, (sy / (3 * area2))%float).

(** The whole number a float equals, if it equals one. *)
Definition whole (x : float) : option Z :=
  match Prim2SF x with
  | S754_zero _ => Some 0
  | S754_finite sg m e =>
      if 0 <=? e then Some (cond_Zopp sg (Z.pos m * 2 ^ e))
      else if Z.pos m mod 2 ^ (- e) =? 0
           then Some (cond_Zopp sg (Z.pos m / 2 ^ (- e)))
           else None
  | _ => None
  end.

Fixpoint decimal (fuel : nat) (n : Z) (acc : string) : string :=
  match fuel with
  | O => acc
  | S fuel' =>
      let d := String (ascii_of_nat (Z.to_nat (48 + n mod 10))) acc in
      if n / 10 =? 0 then d else decimal fuel' (n / 10) d
  end.

(** The text of a height cell in a float64 column, for the heights the
    sample has, whole numbers and missing ones: ["8.0"], ["nan"]. *)
Definition str_height (row : join_record) : string :=
  match column_value (height (building (joined row))) with
  | None => "nan"
  | Some x =>
      match whole x with
      | Some n =>
          (if n <? 0 then "-" else "")
          +:+ decimal 400 (Z.abs n) "" +:+ ".0"
      | None => "nan"
      end
  end.

Definition sample_features : list feature :=
  match features Flat.dec_float Flat.dec_int Flat.sample_elements with
  | Ok fs => fs
  | Raise _ => []
  end.

Definition sample_markers : list marker :=
  match markers centroid str_height Flat.sample_records with
  | Some ms => ms
  | None => []
  end.

End Draw.

(** ** A metric grid geometry, for running STEP 8 *)

Module Grid.

(** Axis-parallel rectangles with whole-metre bounds in the metric frame;
    [None] is the empty geometry. *)
Record ibox := IBox { gx0 : Z; gy0 : Z; gx1 : Z; gy1 : Z }.

Definition geom : Type := option ibox.


(** The whole metres of a distance, towards zero. *)
Definition metres (d : float) : Z :=
  match Prim2SF d with
  | S754_finite sg m e =>
      cond_Zopp sg (if 0 <=? e then Z.pos m * 2 ^ e
                    else Z.pos m / 2 ^ (- e))
  | _ => 0
  end.

(** Growing by the whole metres of [d] on every side; a rectangle left
    without interior is the empty geometry. *)
Definition buffer (g : geom) (d : float) : geom :=
  match g with
  | Some b =>
      let k := metres d in
      let b' := {| gx0 := gx0 b - k; gy0 := gy0 b - k;
                   gx1 := gx1 b + k; gy1 := gy1 b + k |} in
      if (gx0 b' <? gx1 b') && (gy0 b' <? gy1 b') then Some b' else None
  | None => None
  end.

Definition same_geom (g : geom) : geom := g.


End Grid.

(** * Properties *)

(** ** binary64 facts *)

Lemma lt_zero_of_zero b x : Prim2SF x = S754_zero b -> Num.lt x 0%float = false.
Proof.
  intros H. unfold Num.lt. rewrite FloatAxioms.ltb_spec, H. reflexivity.
Qed.

Lemma eq_zero_of_zero b x : Prim2SF x = S754_zero b -> Num.eq x 0%float = true.
Proof.
  intros H. unfold Num.eq. rewrite FloatAxioms.eqb_spec, H. reflexivity.
Qed.

(** Equal finite values have a zero difference (of either sign). *)
Lemma sub_equal_finite s t :
  Num.finite s = true -> Num.eq s t = true ->
  exists b, Prim2SF (s - t)%float = S754_zero b.
Proof.
  unfold Num.finite, Num.eq.
  rewrite FloatAxioms.eqb_spec, FloatAxioms.sub_spec.
  unfold SFeqb, SF64sub.
  destruct (Prim2SF s) as [sx|sx| |sx mx ex], (Prim2SF t) as [sy|sy| |sy my ey];
    intros Hf He; simpl in *; try discriminate;
    try (destruct sx; discriminate); try (destruct sy; discriminate).
  - destruct sx, sy; eauto.
  - assert (ex = ey /\ mx = my) as [-> ->].
    { destruct sx, sy; try discriminate;
        destruct (Z.compare_spec ex ey) as [->| |]; try discriminate;
        destruct (PosDef.Pos.compare_cont Eq mx my) eqn:E; try discriminate;
        apply Pos.compare_eq in E; auto. }
    assert (sx = sy) as -> by (destruct sx, sy; try discriminate; reflexivity).
    rewrite Z.sub_diag. simpl. eauto.
Qed.

(** ** The height map *)

Module RasterFacts.
Import Raster.

Lemma clean_not_negative h : Num.lt (clean h) 0%float = false.
Proof.
  unfold clean. destruct (Num.lt h 0%float) eqn:E; [reflexivity | exact E].
Qed.

Lemma height_px_equal_finite s t :
  Num.finite s = true -> Num.eq s t = true ->
  Num.eq (height_px s t) 0%float = true.
Proof.
  intros Hf He. destruct (sub_equal_finite s t Hf He) as [b Hb].
  unfold height_px, clean. rewrite (lt_zero_of_zero b _ Hb).
  exact (eq_zero_of_zero b _ Hb).
Qed.

Lemma nth_error_zip_row f r1 : forall r2 j,
  nth_error (zip_row f r1 r2) j =
  match nth_error r1 j, nth_error r2 j with
  | Some a, Some b => Some (f a b)
  | _, _ => None
  end.
Proof.
  induction r1 as [|a r1 IH]; intros [|b r2] [|j]; simpl; try reflexivity.
  - destruct (nth_error r1 j); reflexivity.
  - apply IH.
Qed.

Lemma px_zip_rows f a1 : forall a2 i j,
  px (zip_rows f a1 a2) i j =
  match px a1 i j, px a2 i j with
  | Some a, Some b => Some (f a b)
  | _, _ => None
  end.
Proof.
  unfold px. induction a1 as [|r1 a1 IH]; intros [|r2 a2] [|i] j; simpl;
    try reflexivity.
  - destruct (nth_error r1 j); reflexivity.
  - destruct (nth_error a1 i) as [r|]; [destruct (nth_error r j)|]; reflexivity.
  - apply nth_error_zip_row.
  - apply IH.
Qed.

Lemma zip_row_all (p : float -> Prop) f r1 : forall r2,
  (forall a b, p (f a b)) -> Forall p (zip_row f r1 r2).
Proof.
  induction r1 as [|a r1 IH]; intros [|b r2] Hp; simpl; constructor; auto.
Qed.

Lemma zip_rows_all (p : float -> Prop) f a1 : forall a2,
  (forall a b, p (f a b)) -> all_px p (zip_rows f a1 a2).
Proof.
  unfold all_px.
  induction a1 as [|r1 a1 IH]; intros [|r2 a2] Hp; simpl; constructor; auto.
  apply zip_row_all, Hp.
Qed.

Lemma zip_row_equal_finite r1 r2 :
  Forall (fun s => Num.finite s = true) r1 ->
  Forall2 (fun s t => Num.eq s t = true) r1 r2 ->
  Forall (fun h => Num.eq h 0%float = true) (zip_row height_px r1 r2).
Proof.
  intros Hf He. induction He as [|s t r1 r2 Hst He IH]; simpl.
  - constructor.
  - inversion Hf; subst. constructor; auto using height_px_equal_finite.
Qed.

(** C7 (as amended): every pixel of the height map is the surface value
    minus the resampled terrain value, with a negative difference
    replaced by zero; no pixel of it is negative; and where the two
    arrays hold finite values and are equal everywhere, every pixel of
    the height map is zero. *)
Theorem height_map_clamped dsm_array resampled_dtm :
  (forall i j,
      px (height_map dsm_array resampled_dtm) i j =
      match px dsm_array i j, px resampled_dtm i j with
      | Some s, Some t =>
          Some (if Num.lt (s - t) 0 then 0 else s - t)%float
      | _, _ => None
      end)
  /\ never_negative (height_map dsm_array resampled_dtm)
  /\ (all_finite dsm_array ->
      equal_everywhere dsm_array resampled_dtm ->
      all_zeros (height_map dsm_array resampled_dtm)).
Proof.
  split; [|split].
  - intros i j. apply (px_zip_rows height_px).
  - apply zip_rows_all. intros a b. apply clean_not_negative.
  - unfold all_finite, equal_everywhere, all_zeros, all_px, height_map.
    intros Hf He. induction He as [|r1 r2 a1 a2 Hr He IH]; simpl.
    + constructor.
    + inversion Hf; subst. constructor; auto using zip_row_equal_finite.
Qed.

(** The statement applied to a 2x2 clip with a noisy pixel. *)
Lemma height_map_clamped_witness :
  all_zeros (height_map [[3; 7]; [0; -2]]%float [[3; 7]; [0; -2]]%float)
  /\ px (height_map [[3; 7]; [0; 2]]%float [[1; 9]; [0; 2]]%float) 0 1
     = Some 0%float.
Proof.
  split.
  - apply (height_map_clamped [[3; 7]; [0; -2]]%float [[3; 7]; [0; -2]]%float).
    + repeat constructor.
    + repeat constructor.
  - destruct (height_map_clamped [[3; 7]; [0; 2]]%float [[1; 9]; [0; 2]]%float)
      as [H _].
    rewrite H. reflexivity.
Defined.

(** C7 as stated fails on infinite pixel values: two arrays that are
    equal everywhere, whose height map is not zero. *)
Lemma equal_infinite_rasters_not_zero :
  equal_everywhere [[infinity]] [[infinity]]
  /\ ~ all_zeros (height_map [[infinity]] [[infinity]]).
Proof.
  split.
  - repeat constructor.
  - intros H. inversion H as [|r a Hr _]; subst.
    inversion Hr as [|h r' Hh _]; subst.
    vm_compute in Hh. discriminate.
Qed.

End RasterFacts.

(** ** The violation label *)

(** C1: [classify_violation] is a function of the two flags alone, defined
    on all four combinations, with the value of the truth table; the four
    labels it can return are distinct. *)
Theorem classify_violation_truth_table :
  classify_violation true true = Both
  /\ classify_violation true false = Height
  /\ classify_violation false true = Boundary
  /\ classify_violation false false = VNone
  /\ (forall h b, exists! v, classify_violation h b = v)
  /\ (forall h b, label (classify_violation h b)
                  ∈ ["None"; "Height"; "Boundary"; "Both"])
  /\ (forall v w, label v = label w -> v = w).
Proof.
  repeat split; try reflexivity.
  - intros h b. exists (classify_violation h b). split; [reflexivity | auto].
  - intros [] []; simpl; set_solver.
  - intros [] []; simpl; intros H; try reflexivity; discriminate.
Qed.

(** ** Footprint reconstruction *)

Lemma bind_Ok {A B} (r : result A) (k : A -> result B) b :
  r ≫= k = Ok b <-> exists a, r = Ok a /\ k a = Ok b.
Proof.
  destruct r as [a|e]; simpl; split.
  - intros H. exists a. auto.
  - intros (a' & [= <-] & H). exact H.
  - discriminate.
  - intros (a' & [=] & _).
Qed.

Lemma for_each_app {A B} (f : A -> result B) l1 l2 :
  for_each f (l1 ++ l2) =
  bs1 ← for_each f l1; bs2 ← for_each f l2; Ok (bs1 ++ bs2).
Proof.
  induction l1 as [|a l1 IH]; simpl.
  - destruct (for_each f l2); reflexivity.
  - destruct (f a) as [b|e]; simpl; [|reflexivity].
    rewrite IH. destruct (for_each f l1) as [bs1|e]; simpl; [|reflexivity].
    destruct (for_each f l2); reflexivity.
Qed.

Lemma for_each_Ok {A B} (f : A -> result B) l bs :
  for_each f l = Ok bs -> Forall2 (fun a b => f a = Ok b) l bs.
Proof.
  revert bs. induction l as [|a l IH]; simpl; intros bs H.
  - injection H as <-. constructor.
  - apply bind_Ok in H as (b & Hb & H).
    apply bind_Ok in H as (bs' & Hbs & [= <-]).
    constructor; auto.
Qed.

Lemma for_each_length {A B} (f : A -> result B) l bs :
  for_each f l = Ok bs -> length bs = length l.
Proof.
  intros H. apply for_each_Ok in H. symmetry. eapply Forall2_length, H.
Qed.

(** Ways add nothing to [node_map]. *)
Lemma node_map_skip_way l1 nodes tags l2 :
  node_map (l1 ++ Way nodes tags :: l2) = node_map (l1 ++ l2).
Proof.
  unfold node_map. rewrite !foldl_app. reflexivity.
Qed.

Lemma ring_closure_closed g :
  (0 < length g)%nat -> ring_closure g = false -> closed g.
Proof.
  unfold ring_closure, closed. intros Hlen H.
  destruct g as [|c g]; [simpl in Hlen; lia|].
  destruct (last (c :: g)) as [d|] eqn:Hd.
  - exists c, d. auto.
  - apply last_None in Hd. discriminate.
Qed.

Lemma Polygon_Ok cs g :
  Polygon cs = Ok g ->
  g = close_ring cs /\ (4 <= length g)%nat /\ closed g.
Proof.
  unfold Polygon. destruct (_ <? 4)%nat eqn:Hlen; [discriminate|].
  destruct (ring_closure (close_ring cs)) eqn:Hc; [discriminate|].
  intros [= <-]. apply Nat.ltb_ge in Hlen.
  split; [reflexivity|]. split; [exact Hlen|].
  apply ring_closure_closed; [lia | exact Hc].
Qed.

Section FootprintFacts.

Variable py_float : string -> option float.
Variable py_int : string -> option Z.

Lemma truthy_given tags k :
  truthy (tags !! k) = true ->
  exists s, given tags k s /\ default EmptyString (tags !! k) = s.
Proof.
  unfold truthy, given. destruct (tags !! k) as [s|]; [|discriminate].
  intros H. exists s. repeat split; auto.
  intros ->. discriminate.
Qed.

Lemma not_truthy_not_given tags k :
  truthy (tags !! k) = false -> not_given tags k.
Proof.
  unfold truthy, not_given. destruct (tags !! k) as [s|]; [|auto].
  intros H. right. f_equal. apply negb_false_iff, String.eqb_eq in H. exact H.
Qed.

Lemma given_not_given tags k s : given tags k s -> not_given tags k -> False.
Proof.
  intros [H1 H2] [H|H]; rewrite H in H1; [discriminate|].
  injection H1 as <-. congruence.
Qed.

Lemma given_inj tags k s s' : given tags k s -> given tags k s' -> s = s'.
Proof. intros [H1 _] [H2 _]. congruence. Qed.

Lemma height_rule_functional tags r r' :
  height_rule py_float py_int tags r ->
  height_rule py_float py_int tags r' -> r = r'.
Proof.
  intros Hr Hr'.
  destruct Hr as [s x Hs Hp|s Hs Hp|s n Hn Hs Hp|s Hn Hs Hp|Hn Hl];
    destruct Hr' as [s' x' Hs' Hp'|s' Hs' Hp'|s' n' Hn' Hs' Hp'
                    |s' Hn' Hs' Hp'|Hn' Hl'];
    try reflexivity;
    try (exfalso; solve [eauto using given_not_given]);
    try (pose proof (given_inj _ _ _ _ Hs Hs'); subst; congruence).
Qed.

(** C5 (as amended): the expression follows the precedence rule on the
    tags it takes (present and not empty), and a taken tag that does not
    parse raises [ValueError] instead of falling back; the rule leaves
    exactly one outcome for every tag set. *)
Theorem est_height_rule tags :
  height_rule py_float py_int tags (est_height py_float py_int tags)
  /\ (forall r, height_rule py_float py_int tags r ->
                r = est_height py_float py_int tags).
Proof.
  assert (Hrule : height_rule py_float py_int tags
                    (est_height py_float py_int tags)).
  { unfold est_height.
    destruct (truthy (tags !! "height")) eqn:Hh.
    - apply truthy_given in Hh as (s & Hs & ->).
      unfold float_of. destruct (py_float s) eqn:Hp.
      + eapply rule_height; eauto.
      + eapply rule_height_unparsable; eauto.
    - apply not_truthy_not_given in Hh.
      destruct (truthy (tags !! "building:levels")) eqn:Hl.
      + apply truthy_given in Hl as (s & Hs & ->).
        unfold int_times_3. destruct (py_int s) eqn:Hp.
        * eapply rule_levels; eauto.
        * eapply rule_levels_unparsable; eauto.
      + apply not_truthy_not_given in Hl. constructor; auto. }
  split; [exact Hrule|].
  intros r Hr. exact (height_rule_functional tags _ _ Hr Hrule).
Qed.

End FootprintFacts.

(** C5 as stated fails on a height tag that is present and does not
    parse: the specification's rule falls back to the levels tag, the
    expression raises, and the run ends there. *)
Lemma unparsable_height_aborts :
  let tags : gmap string string :=
    list_to_map [("building", "yes"); ("height", "12 m");
                 ("building:levels", "4")] in
  stated_height Flat.dec_float Flat.dec_int tags = PyFloat 12
  /\ est_height Flat.dec_float Flat.dec_int tags = Raise ValueError
  /\ Flat.run [] [Node 1 0 0; Node 2 4 0; Node 3 4 4; Way [1; 2; 3; 1] (Some tags)]
     = Raise ValueError.
Proof. vm_compute. repeat split; reflexivity. Qed.

Section FeatureFacts.

Variable py_float : string -> option float.
Variable py_int : string -> option Z.

Lemma way_features_Ok nm el fs f :
  way_features py_float py_int nm el = Ok fs -> f ∈ fs ->
  built_from py_float py_int nm el f.
Proof.
  unfold way_features, built_from.
  destruct el as [| nodes [tags|] |]; try (intros [= <-] Hf; inversion Hf).
  destruct (decide _) as [Hb|]; [|intros [= <-] Hf; inversion Hf].
  destruct (3 <=? _)%nat eqn:Hlen; [|intros [= <-] Hf; inversion Hf].
  intros H Hf.
  apply bind_Ok in H as (g & Hg & H).
  apply bind_Ok in H as (h & Hh & [= <-]).
  apply list_elem_of_singleton in Hf as ->. simpl.
  exists nodes, tags. apply Nat.leb_le in Hlen. auto.
Qed.

Lemma features_Ok els fs f :
  features py_float py_int els = Ok fs -> f ∈ fs ->
  exists el, el ∈ els /\ built_from py_float py_int (node_map els) el f.
Proof.
  unfold features. intros H Hf.
  apply bind_Ok in H as (fss & Hfss & [= <-]).
  apply for_each_Ok in Hfss.
  apply list_elem_of_In, in_concat in Hf as (l & Hl & Hf).
  apply list_elem_of_In in Hl, Hf.
  apply list_elem_of_lookup in Hl as (i & Hi).
  destruct (Forall2_lookup_r _ _ _ _ _ Hfss Hi) as (el & Hel & Hw).
  exists el. split; [eapply list_elem_of_lookup_2, Hel|].
  eapply way_features_Ok; eauto.
Qed.

Lemma way_features_short nm nodes tags :
  (length (coords nm nodes) < 3)%nat ->
  way_features py_float py_int nm (Way nodes tags) = Ok [].
Proof.
  intros Hlen. unfold way_features. destruct tags as [tags|]; [|reflexivity].
  destruct (decide _); [|reflexivity].
  apply Nat.leb_gt in Hlen. rewrite Hlen. reflexivity.
Qed.

(** C6 (as amended): a way with fewer than 3 resolvable node coordinates
    contributes nothing to the reconstructed collection (the collection
    is the one obtained without that way), and every emitted building
    has a closed ring of at least 4 coordinates, built from at least 3
    resolved node coordinates of its way, which need not be distinct. *)
Theorem footprints_need_three_coords :
  (forall l1 nodes tags l2,
      (length (coords (node_map (l1 ++ Way nodes tags :: l2)) nodes) < 3)%nat ->
      features py_float py_int (l1 ++ Way nodes tags :: l2)
      = features py_float py_int (l1 ++ l2))
  /\ (forall els fs f,
         features py_float py_int els = Ok fs -> f ∈ fs ->
         closed (geometry f)
         /\ (4 <= length (geometry f))%nat
         /\ exists nodes tags,
             Way nodes (Some tags) ∈ els
             /\ (3 <= length (coords (node_map els) nodes))%nat
             /\ geometry f = close_ring (coords (node_map els) nodes)).
Proof.
  split.
  - intros l1 nodes tags l2 Hlen. unfold features.
    rewrite node_map_skip_way in *. rewrite !for_each_app.
    cbn [for_each]. rewrite (way_features_short _ _ _ Hlen). simpl.
    destruct (for_each _ l1) as [bs1|e]; simpl; [|reflexivity].
    destruct (for_each _ l2) as [bs2|e]; simpl; [|reflexivity].
    rewrite !concat_app. reflexivity.
  - intros els fs f H Hf.
    destruct (features_Ok _ _ _ H Hf)
      as (el & Hel & nodes & tags & -> & Hb & Hlen & Hg & Hh).
    apply Polygon_Ok in Hg as (Hg & Hlen4 & Hclosed).
    repeat split; auto. exists nodes, tags. auto.
Qed.

End FeatureFacts.

(** The statement applied to a way with two resolvable nodes of three,
    and to the footprint of a triangle. *)
Lemma footprints_need_three_coords_witness :
  let tags : gmap string string := list_to_map [("building", "yes")] in
  features Flat.dec_float Flat.dec_int
    ([Node 1 0 0; Node 2 4 0] ++ Way [1; 2; 9] (Some tags) :: [])
  = Ok []
  /\ forall f,
      f ∈ [ {| geometry := [(0, 0); (4, 0); (4, 4); (0, 0)]%float;
               height := PyNone; name := ""; levels := None |} ] ->
      closed (geometry f).
Proof.
  intros tags. split.
  - rewrite (proj1 (footprints_need_three_coords Flat.dec_float Flat.dec_int));
      [reflexivity | vm_compute; lia].
  - intros f Hf.
    eapply (proj2 (footprints_need_three_coords Flat.dec_float Flat.dec_int)
              [Node 1 0 0; Node 2 4 0; Node 3 4 4; Way [1; 2; 3] (Some tags)]);
      [|exact Hf].
    vm_compute. reflexivity.
Defined.

(** C6 as stated fails on a way that names two nodes twice: it resolves
    to four coordinates, is emitted, and its ring has two distinct
    vertices. *)
Lemma repeated_nodes_footprint :
  let ring := [(0, 0); (1, 1); (0, 0); (1, 1); (0, 0)]%float in
  features Flat.dec_float Flat.dec_int
    [Node 1 0 0; Node 2 1 1;
     Way [1; 2; 1; 2] (Some (list_to_map [("building", "yes")]))]
  = Ok [ {| geometry := ring; height := PyNone; name := ""; levels := None |} ]
  /\ ~ three_distinct ring.
Proof.
  split.
  - vm_compute. reflexivity.
  - intros (a & b & c & Ha & Hb & Hc & Hab & Hbc & Hac).
    assert (E : forall p : coord,
               p ∈ [(0, 0); (1, 1); (0, 0); (1, 1); (0, 0)]%float ->
               p = (0, 0)%float \/ p = (1, 1)%float).
    { intros p Hp. rewrite !elem_of_cons in Hp.
      destruct Hp as [->|[->|[->|[->|[->|Hp]]]]]; auto. inversion Hp. }
    destruct (E a Ha), (E b Hb), (E c Hc); congruence.
Qed.

(** ** Zoning parcels, join and classification *)

Lemma for_each_total {A B} (f : A -> result B) l :
  (forall a, a ∈ l -> exists b, f a = Ok b) ->
  exists bs, for_each f l = Ok bs.
Proof.
  induction l as [|a l IH]; intros H; simpl.
  - eauto.
  - destruct (H a) as [b ->]; [left|]. simpl.
    destruct IH as [bs ->]; [intros; apply H; right; auto|].
    simpl. eauto.
Qed.

(** Unfolding of the steps, by name. *)
Ltac unfold_step name :=
  lazymatch name with
  | "zones" => unfold zones
  | "building_rows" => unfold building_rows
  | "sjoin_within" => unfold sjoin_within
  | "with_buildable_area" => unfold with_buildable_area
  | "classify_buildings" => unfold classify_buildings
  | "pipeline" => unfold pipeline
  end.

Section ZoningFacts.

Context {geom : Type}.
Variable within : polygon -> geom -> bool.
Variable buffer : geom -> float -> geom.
Variable file_to_dsm : geom -> geom.
Variable wgs_to_dsm : coord -> coord.
Variable dsm_to_utm : geom -> geom.
Variable utm_to_dsm : geom -> geom.
Variable py_float : string -> option float.
Variable py_int : string -> option Z.

Local Abbreviation zones := (zones file_to_dsm).
Local Abbreviation building_rows := (building_rows wgs_to_dsm).
Local Abbreviation sjoin_within := (sjoin_within within).
Local Abbreviation buildable := (buildable buffer dsm_to_utm utm_to_dsm).
Local Abbreviation with_buildable_area :=
  (with_buildable_area buffer dsm_to_utm utm_to_dsm).
Local Abbreviation classify_buildings :=
  (classify_buildings within buffer file_to_dsm wgs_to_dsm
                      dsm_to_utm utm_to_dsm).
Local Abbreviation pipeline :=
  (pipeline within buffer file_to_dsm wgs_to_dsm dsm_to_utm utm_to_dsm
            py_float py_int).

Implicit Types (file : list (@raw_parcel geom)) (z : @parcel geom).

(** *** The parcel store *)

Lemma zones_lookup file i :
  zones file !! i =
  (fun r => {| index := i;
               zone_geometry := file_to_dsm (raw_geometry r);
               max_height := Num.f10_5;
               setback := Num.f5_0 |}) <$> file !! i.
Proof.
  unfold_step "zones". unfold to_crs, assign_limits.
  change (map ?f ?l) with (f <$> l).
  rewrite list_lookup_fmap, list_lookup_imap.
  destruct (file !! i); reflexivity.
Qed.

Lemma zones_limits file z :
  z ∈ zones file -> max_height z = Num.f10_5 /\ setback z = Num.f5_0.
Proof.
  intros Hz. apply list_elem_of_lookup in Hz as (i & Hi).
  rewrite zones_lookup in Hi.
  destruct (file !! i); simpl in Hi; [|discriminate].
  injection Hi as <-. auto.
Qed.

Lemma zones_index file i z : zones file !! i = Some z -> index z = i.
Proof.
  rewrite zones_lookup.
  destruct (file !! i); simpl; [|discriminate]. intros [= <-]. reflexivity.
Qed.

(** Labels of the RangeIndex identify the parcel. *)
Lemma zones_index_inj file z z' :
  z ∈ zones file -> z' ∈ zones file -> index z = index z' -> z = z'.
Proof.
  intros Hz Hz' E.
  apply list_elem_of_lookup in Hz as (i & Hi), Hz' as (i' & Hi').
  pose proof (zones_index _ _ _ Hi). pose proof (zones_index _ _ _ Hi').
  congruence.
Qed.

(** *** The join *)

Lemma sjoin_within_elem bs (zs : list (@parcel geom)) r :
  r ∈ sjoin_within bs zs <->
  exists b z, b ∈ bs /\ z ∈ zs
              /\ within (geometry b.2) (zone_geometry z) = true
              /\ r = join b z.
Proof.
  unfold_step "sjoin_within". unfold matches.
  rewrite list_elem_of_In, in_flat_map. split.
  - intros (b & Hb & Hr). apply in_map_iff in Hr as (z & <- & Hz).
    apply filter_In in Hz as [Hz Hw].
    exists b, z. rewrite !list_elem_of_In. auto.
  - intros (b & z & Hb & Hz & Hw & ->). exists b.
    apply list_elem_of_In in Hb. apply list_elem_of_In in Hz.
    split; [exact Hb|].
    apply in_map, filter_In. auto.
Qed.

(** *** The lookup of STEP 9 *)

Lemma zone_at_found (zs : list (@parcel geom)) z :
  (forall z', z' ∈ zs -> index z' = index z -> z' = z) ->
  z ∈ zs ->
  zone_at (with_buildable_area zs) (index z)
  = Ok {| zone := z; buildable_area := buildable z |}.
Proof.
  unfold zone_at. unfold_step "with_buildable_area".
  induction zs as [|z0 zs IH]; intros Hinj Hz.
  - inversion Hz.
  - simpl. destruct (Nat.eqb (index z0) (index z)) eqn:E.
    + apply Nat.eqb_eq in E. rewrite (Hinj z0); [reflexivity|left|exact E].
    + apply elem_of_cons in Hz as [->|Hz].
      * rewrite Nat.eqb_refl in E. discriminate.
      * apply IH; [|exact Hz]. intros z' Hz'. apply Hinj. right. exact Hz'.
Qed.

Lemma boundary_check_joined file b z :
  z ∈ zones file ->
  boundary_check within (with_buildable_area (zones file)) (join b z)
  = Ok (negb (within (geometry b.2) (buildable z))).
Proof.
  intros Hz. unfold boundary_check. simpl.
  rewrite zone_at_found; [reflexivity| |exact Hz].
  intros z' Hz' E. eapply zones_index_inj; eauto.
Qed.

(** *** Rows of one building in the join *)

Lemma rows_of_map_join (b : nat * feature) (zs : list (@parcel geom)) i :
  List.filter (fun r => Nat.eqb (left_index r) i) (map (join b) zs)
  = if Nat.eqb b.1 i then map (join b) zs else [].
Proof.
  induction zs as [|z zs IH]; simpl.
  - destruct (Nat.eqb b.1 i); reflexivity.
  - rewrite IH. destruct (Nat.eqb b.1 i); reflexivity.
Qed.

Lemma rows_of_absent bs (zs : list (@parcel geom)) i :
  i ∉ bs.*1 ->
  List.filter (fun r => Nat.eqb (left_index r) i) (sjoin_within bs zs) = [].
Proof.
  unfold_step "sjoin_within".
  induction bs as [|b bs IH]; simpl; intros Hi; [reflexivity|].
  apply not_elem_of_cons in Hi as [Hne Hi].
  rewrite List.filter_app, rows_of_map_join, IH by exact Hi.
  destruct (Nat.eqb_spec b.1 i); [congruence | reflexivity].
Qed.

Lemma rows_of_present bs (zs : list (@parcel geom)) b :
  NoDup bs.*1 -> b ∈ bs ->
  List.filter (fun r => Nat.eqb (left_index r) b.1) (sjoin_within bs zs)
  = map (join b) (matches within b zs).
Proof.
  unfold_step "sjoin_within".
  induction bs as [|b0 bs IH]; simpl; intros Hnd Hb; [inversion Hb|].
  apply NoDup_cons in Hnd as [Hb0 Hnd].
  rewrite List.filter_app, rows_of_map_join.
  apply elem_of_cons in Hb as [->|Hb].
  - rewrite Nat.eqb_refl.
    rewrite <- (app_nil_r (map _ _)) at 2. f_equal.
    pose proof (rows_of_absent bs zs _ Hb0) as Habs.
    revert Habs. unfold_step "sjoin_within". auto.
  - destruct (Nat.eqb_spec b0.1 b.1) as [E|_].
    + exfalso. apply Hb0. rewrite E. apply list_elem_of_fmap_2, Hb.
    + simpl. apply IH; assumption.
Qed.

Lemma building_rows_lookup fs i :
  building_rows fs !! i = (fun f => (i, reproject_feature wgs_to_dsm f)) <$> fs !! i.
Proof. unfold_step "building_rows". apply list_lookup_imap. Qed.

Lemma building_rows_NoDup fs : NoDup (building_rows fs).*1.
Proof.
  apply NoDup_alt. intros i j x.
  rewrite !list_lookup_fmap, !building_rows_lookup.
  destruct (fs !! i), (fs !! j); simpl; congruence.
Qed.

Lemma buildings_gdf_Ok fs bs :
  buildings_gdf wgs_to_dsm fs = Ok bs -> fs <> [] /\ bs = building_rows fs.
Proof.
  unfold buildings_gdf. destruct fs; [discriminate|].
  intros [= <-]. split; [discriminate | reflexivity].
Qed.

Lemma buildings_gdf_nonempty fs :
  fs <> [] -> buildings_gdf wgs_to_dsm fs = Ok (building_rows fs).
Proof. unfold buildings_gdf. destruct fs; [congruence | reflexivity]. Qed.

(** *** STEPS 7-11 as a whole *)

Lemma joined_zip_with_decorate (rows : list join_row) : forall bvs,
  length bvs = length rows ->
  joined <$> zip_with decorate rows bvs = rows.
Proof.
  induction rows as [|r rows IH]; intros [|bv bvs] Hlen;
    simpl in *; try reflexivity; try discriminate.
  f_equal. apply IH. lia.
Qed.

(** The lookup of STEP 9 always finds the parcel of a joined row, so the
    loop returns on the rows of any join with [zones]. *)
Lemma boundary_violations_total file bs :
  exists bvs,
    boundary_violations within (with_buildable_area (zones file))
                        (sjoin_within bs (zones file)) = Ok bvs
    /\ length bvs = length (sjoin_within bs (zones file)).
Proof.
  unfold boundary_violations.
  destruct (for_each_total
              (boundary_check within (with_buildable_area (zones file)))
              (sjoin_within bs (zones file))) as [bvs Hbvs].
  { intros r Hr. apply sjoin_within_elem in Hr as (b & z & _ & Hz & _ & ->).
    rewrite boundary_check_joined by exact Hz. eauto. }
  exists bvs. split; [exact Hbvs|]. eapply for_each_length, Hbvs.
Qed.

(** Lines 70-111 return whenever there is a feature to build the frame
    from, with the rows of the join. *)
Lemma classify_buildings_total file fs :
  fs <> [] ->
  exists out,
    classify_buildings file fs = Ok out
    /\ joined <$> out = sjoin_within (building_rows fs) (zones file).
Proof.
  intros Hfs. unfold_step "classify_buildings".
  rewrite (buildings_gdf_nonempty fs Hfs). simpl.
  destruct (boundary_violations_total file (building_rows fs))
    as (bvs & -> & Hlen).
  simpl. eexists. split; [reflexivity|].
  apply joined_zip_with_decorate, Hlen.
Qed.

(** Every row of the result is a building joined with a parcel it is
    within, decorated against that parcel. *)
Lemma classify_buildings_record file fs out rec :
  classify_buildings file fs = Ok out -> rec ∈ out ->
  exists b z,
    b ∈ building_rows fs /\ z ∈ zones file
    /\ within (geometry b.2) (zone_geometry z) = true
    /\ rec = decorate (join b z) (negb (within (geometry b.2) (buildable z))).
Proof.
  unfold_step "classify_buildings". unfold boundary_violations. intros H Hrec.
  apply bind_Ok in H as (bs & Hbs & H).
  apply buildings_gdf_Ok in Hbs as [_ ->].
  apply bind_Ok in H as (bvs & Hbvs & [= <-]).
  apply for_each_Ok in Hbvs.
  apply elem_of_lookup_zip_with in Hrec as (i & r & bv & -> & Hr & Hbv).
  pose proof (Forall2_lookup_lr _ _ _ _ _ _ Hbvs Hr Hbv) as Hcheck.
  apply list_elem_of_lookup_2, sjoin_within_elem in Hr
    as (b & z & Hb & Hz & Hw & ->).
  rewrite boundary_check_joined in Hcheck by exact Hz.
  injection Hcheck as <-. exists b, z. auto.
Qed.

Lemma pipeline_record file elements out rec :
  pipeline file elements = Ok out -> rec ∈ out ->
  exists b z,
    z ∈ zones file
    /\ within (geometry b.2) (zone_geometry z) = true
    /\ rec = decorate (join b z) (negb (within (geometry b.2) (buildable z))).
Proof.
  unfold_step "pipeline". intros H Hrec.
  apply bind_Ok in H as (fs & _ & H).
  destruct (classify_buildings_record _ _ _ _ H Hrec)
    as (b & z & _ & Hz & Hw & ->).
  exists b, z. auto.
Qed.

(** *** The claims on join records *)

(** C2: for every record the script produces, [boundary_violation] is
    true exactly when the building's geometry is not within the
    buildable area of its associated parcel, the one parcel of [zones]
    whose label is the record's [index_right] and which the building was
    joined with. *)
Theorem boundary_violation_iff_outside_buildable file elements out rec :
  pipeline file elements = Ok out -> rec ∈ out ->
  exists z,
    z ∈ zones file
    /\ index z = index_right (joined rec)
    /\ (forall z', z' ∈ zones file ->
                   index z' = index_right (joined rec) -> z' = z)
    /\ within (geometry (building (joined rec))) (zone_geometry z) = true
    /\ (boundary_violation rec = true <->
        within (geometry (building (joined rec))) (buildable z) = false).
Proof.
  intros H Hrec.
  destruct (pipeline_record _ _ _ _ H Hrec) as (b & z & Hz & Hw & ->).
  exists z. simpl. repeat split; auto.
  - intros z' Hz' E. eapply zones_index_inj; eauto.
  - apply negb_true_iff.
  - apply negb_true_iff.
Qed.

(** C3: for every record the script produces, [violation] is true exactly
    when the building has a height and it exceeds the [max_height] of the
    associated parcel; a building of unknown height has it false. *)
Theorem height_violation_iff_exceeds file elements out rec :
  pipeline file elements = Ok out -> rec ∈ out ->
  exists z,
    z ∈ zones file
    /\ index z = index_right (joined rec)
    /\ (violation rec = true <->
        exists x, column_value (height (building (joined rec))) = Some x
                  /\ Num.gt x (max_height z) = true)
    /\ (height (building (joined rec)) = PyNone -> violation rec = false).
Proof.
  intros H Hrec.
  destruct (pipeline_record _ _ _ _ H Hrec) as (b & z & Hz & Hw & ->).
  exists z. simpl. unfold gt_column. repeat split; auto.
  - destruct (column_value (height b.2)) as [x|]; [eauto | discriminate].
  - intros (x & -> & Hx). exact Hx.
  - intros ->. reflexivity.
Qed.

(** C4 (as amended): the join holds exactly one row for every pair of a
    building and a parcel whose geometry the building is within, so a
    building within no parcel has no row and a building within k parcels
    has k rows, one per containing parcel; the join is a function of its
    inputs, and the loop over its rows returns, overlapping parcels or
    not. *)
Theorem sjoin_one_row_per_containing_parcel file fs :
  let rows := sjoin_within (building_rows fs) (zones file) in
  (forall r, r ∈ rows <->
             exists b z, b ∈ building_rows fs /\ z ∈ zones file
                         /\ within (geometry b.2) (zone_geometry z) = true
                         /\ r = join b z)
  /\ (forall i f, fs !! i = Some f ->
        let b := (i, reproject_feature wgs_to_dsm f) in
        List.filter (fun r => Nat.eqb (left_index r) i) rows
        = map (join b)
              (List.filter (fun z => within (geometry b.2) (zone_geometry z))
                           (zones file)))
  /\ (exists bvs,
        boundary_violations within (with_buildable_area (zones file)) rows
        = Ok bvs
        /\ length bvs = length rows).
Proof.
  intros rows. split; [|split].
  - intros r. apply sjoin_within_elem.
  - intros i f Hf b.
    apply (rows_of_present (building_rows fs) (zones file) b).
    + apply building_rows_NoDup.
    + eapply list_elem_of_lookup_2. rewrite building_rows_lookup, Hf. reflexivity.
  - apply boundary_violations_total.
Qed.

(** C10: after loading, every parcel has [max_height] 10.5 and [setback]
    5.0 whatever the file carried; reprojection and the buildable-area
    column keep them; and every record carries these two limits. *)
Theorem uniform_limits file :
  let uniform z := max_height z = 10.5%float /\ setback z = 5%float in
  Forall uniform (assign_limits file)
  /\ Forall uniform (zones file)
  /\ Forall uniform (to_crs dsm_to_utm (zones file))
  /\ Forall (fun zd => uniform (zone zd)) (with_buildable_area (zones file))
  /\ (forall elements out,
        pipeline file elements = Ok out ->
        Forall (fun rec => row_max_height (joined rec) = 10.5%float
                           /\ row_setback (joined rec) = 5%float) out).
Proof.
  intros uniform.
  assert (Hz : Forall uniform (zones file)).
  { apply Forall_forall. intros z Hz. apply (zones_limits file z Hz). }
  repeat split.
  - apply Forall_forall. intros z Hz'.
    apply list_elem_of_lookup in Hz' as (i & Hi).
    unfold assign_limits in Hi. rewrite list_lookup_imap in Hi.
    destruct (file !! i); simpl in Hi; [|discriminate].
    injection Hi as <-. split; reflexivity.
  - exact Hz.
  - unfold to_crs. change (map ?g ?l) with (g <$> l).
    apply Forall_fmap. eapply Forall_impl; [exact Hz|]. intros z Hu. exact Hu.
  - unfold_step "with_buildable_area". change (map ?g ?l) with (g <$> l).
    apply Forall_fmap. eapply Forall_impl; [exact Hz|]. intros z Hu. exact Hu.
  - intros elements out H. apply Forall_forall. intros rec Hrec.
    destruct (pipeline_record _ _ _ _ H Hrec) as (b & z & Hz' & _ & ->).
    simpl. apply (zones_limits file z Hz').
Qed.

(** *** Empty buildable areas *)

Section EmptyBuildable.

(** shapely's emptiness test, and the fact about [within] that the
    statement below rests on: nothing is within an empty geometry. *)
Variable is_empty : geom -> bool.
Hypothesis within_empty :
  forall p g, is_empty g = true -> within p g = false.

(** C9 (as amended): an empty buildable area is an ordinary value of
    STEP 9, whose loop returns on the rows of the join whatever areas are
    empty; and a building joined to a parcel whose buildable area is
    empty is a boundary violation, labelled [Boundary] or [Both]. *)
Theorem empty_buildable_is_boundary_violation file :
  (forall bs, exists bvs,
      boundary_violations within (with_buildable_area (zones file))
                          (sjoin_within bs (zones file)) = Ok bvs)
  /\ (forall elements out rec z,
        pipeline file elements = Ok out -> rec ∈ out ->
        z ∈ zones file ->
        index z = index_right (joined rec) ->
        is_empty (buildable z) = true ->
        boundary_violation rec = true
        /\ (violation_type rec = Boundary \/ violation_type rec = Both)).
Proof.
  split.
  - intros bs.
    destruct (boundary_violations_total file bs) as (bvs & Hb & _). eauto.
  - intros elements out rec z' H Hrec Hz' E Hempty.
    destruct (pipeline_record _ _ _ _ H Hrec) as (b & z & Hz & Hw & ->).
    simpl in *. assert (z' = z) as -> by (eapply zones_index_inj; eauto).
    rewrite (within_empty _ _ Hempty). simpl. split; [reflexivity|].
    unfold classify_violation. destruct (gt_column _ _); simpl; auto.
Qed.

End EmptyBuildable.

End ZoningFacts.

(** ** The buildable area *)


Section BuildableArea.

Context {geom : Type}.
Variable buffer : geom -> float -> geom.
Variable file_to_dsm : geom -> geom.
Variable dsm_to_utm : geom -> geom.
Variable utm_to_dsm : geom -> geom.

(** [subset a b]: [a] lies inside [b], up to the tolerance of the
    geometry library.  What the statement takes from the library: the
    relation composes; a buffer by a distance that is not positive does
    not leave the geometry; reprojecting back keeps containment; and a
    geometry taken to the metric frame and back lies inside itself. *)
Variable subset : geom -> geom -> Prop.
Hypothesis subset_trans :
  forall a b c, subset a b -> subset b c -> subset a c.
Hypothesis buffer_inward :
  forall g d, PrimFloat.leb d 0 = true -> subset (buffer g d) g.
Hypothesis reproject_subset :
  forall a b, subset a b -> subset (utm_to_dsm a) (utm_to_dsm b).
Hypothesis round_trip :
  forall g, subset (utm_to_dsm (dsm_to_utm g)) g.


End BuildableArea.

(** The grid geometry meets what the statement takes from the library. *)
Module GridFacts.
Import Grid.






End GridFacts.

(** ** The sample run *)

Module SampleRun.
Import Flat.

Abbreviation zones := (zones same_geom).
Abbreviation buildable := (buildable buffer same_geom same_geom).

Lemma sample_run : run sample_file sample_elements = Ok sample_records.
Proof. vm_compute. reflexivity. Qed.

Lemma sample_summary :
  map summary sample_records
  = [ (0, 0, false, false, VNone); (0, 1, false, false, VNone);
      (1, 0, true, false, Height); (2, 0, false, true, Boundary);
      (3, 2, false, true, Boundary); (4, 0, true, true, Both) ]%nat.
Proof. vm_compute. reflexivity. Qed.

Lemma within_empty_flat p g : is_empty g = true -> within p g = false.
Proof. destruct g; [discriminate | reflexivity]. Qed.

(** C2 on the records of the sample run. *)
Lemma boundary_violation_iff_outside_buildable_witness :
  Forall (fun rec =>
            exists z,
              z ∈ zones sample_file
              /\ index z = index_right (joined rec)
              /\ (boundary_violation rec = true <->
                  within (geometry (building (joined rec))) (buildable z)
                  = false))
         sample_records.
Proof.
  apply Forall_forall. intros rec Hrec.
  destruct (boundary_violation_iff_outside_buildable
              within buffer same_geom same_coord same_geom same_geom
              dec_float dec_int sample_file sample_elements
              sample_records rec) as (z & Hz & Hi & _ & _ & Hbv).
  - vm_compute. reflexivity.
  - exact Hrec.
  - exists z. auto.
Defined.

(** C3 on the records of the sample run. *)
Lemma height_violation_iff_exceeds_witness :
  Forall (fun rec =>
            exists z,
              z ∈ zones sample_file
              /\ index z = index_right (joined rec)
              /\ (violation rec = true <->
                  exists x,
                    column_value (height (building (joined rec))) = Some x
                    /\ Num.gt x (max_height z) = true)
              /\ (height (building (joined rec)) = PyNone ->
                  violation rec = false))
         sample_records.
Proof.
  apply Forall_forall. intros rec Hrec.
  apply (height_violation_iff_exceeds
           within buffer same_geom same_coord same_geom same_geom
           dec_float dec_int sample_file sample_elements sample_records rec).
  - vm_compute. reflexivity.
  - exact Hrec.
Defined.

(** C9 (as amended) on the records of the sample run. *)
Lemma empty_buildable_is_boundary_violation_witness :
  Forall (fun rec =>
            forall z, z ∈ zones sample_file ->
                      index z = index_right (joined rec) ->
                      is_empty (buildable z) = true ->
                      boundary_violation rec = true
                      /\ (violation_type rec = Boundary
                          \/ violation_type rec = Both))
         sample_records.
Proof.
  apply Forall_forall. intros rec Hrec z.
  apply (proj2 (empty_buildable_is_boundary_violation
                  within buffer same_geom same_coord same_geom same_geom
                  dec_float dec_int is_empty within_empty_flat sample_file)
           sample_elements sample_records rec z).
  - vm_compute. reflexivity.
  - exact Hrec.
Defined.

(** C4 as stated fails on overlapping parcels: the first building of the
    sample lies within parcels 0 and 1 and has a row for each. *)
Lemma overlapping_parcels_two_rows :
  run sample_file sample_elements = Ok sample_records
  /\ map (fun rec => (left_index (joined rec), index_right (joined rec)))
         sample_records
     = [(0, 0); (0, 1); (1, 0); (2, 0); (3, 2); (4, 0)]%nat
  /\ ~ (forall r1 r2,
          r1 ∈ sample_records -> r2 ∈ sample_records ->
          left_index (joined r1) = left_index (joined r2) ->
          index_right (joined r1) = index_right (joined r2)).
Proof.
  split; [vm_compute; reflexivity|]. split; [vm_compute; reflexivity|].
  intros H.
  assert (E : exists r1 r2,
             sample_records !! 0%nat = Some r1
             /\ sample_records !! 1%nat = Some r2
             /\ left_index (joined r1) = left_index (joined r2)
             /\ index_right (joined r1) <> index_right (joined r2)).
  { vm_compute. do 2 eexists. repeat split; try reflexivity. discriminate. }
  destruct E as (r1 & r2 & H1 & H2 & Hl & Hr).
  apply Hr, H; eauto using list_elem_of_lookup_2.
Qed.

(** C9 as stated fails on parcel 2 of the sample: its buildable area is
    empty, and the building joined to it is a boundary violation. *)
Lemma empty_buildable_building_flagged :
  run sample_file sample_elements = Ok sample_records
  /\ exists rec z,
      sample_records !! 4%nat = Some rec
      /\ zones sample_file !! 2%nat = Some z
      /\ index z = index_right (joined rec)
      /\ is_empty (buildable z) = true
      /\ boundary_violation rec = true
      /\ violation_type rec = Boundary.
Proof.
  split; [vm_compute; reflexivity|].
  vm_compute. do 2 eexists. repeat split; reflexivity.
Qed.

(** C4 (as amended) on the sample: the rows of its first building. *)
Lemma sjoin_one_row_per_containing_parcel_witness :
  length (List.filter (fun r => Nat.eqb (left_index r) 0)
            (sjoin_within within (building_rows same_coord
               [ {| geometry := [(10, 10); (14, 10); (14, 15); (10, 10)]%float;
                    height := PyNone; name := ""; levels := None |} ])
               (zones sample_file))) = 2%nat.
Proof.
  destruct (sjoin_one_row_per_containing_parcel
              within buffer same_geom same_coord same_geom same_geom
              sample_file
              [ {| geometry := [(10, 10); (14, 10); (14, 15); (10, 10)]%float;
                   height := PyNone; name := ""; levels := None |} ])
    as (_ & Hrows & _).
  rewrite (Hrows 0%nat _ eq_refl). reflexivity.
Defined.

(** C10 on the sample, whose first parcel carries other limits in the
    file. *)
Lemma uniform_limits_witness :
  Forall (fun rec => row_max_height (joined rec) = 10.5%float
                     /\ row_setback (joined rec) = 5%float)
         sample_records.
Proof.
  destruct (uniform_limits within buffer same_geom same_coord same_geom
              same_geom dec_float dec_int sample_file)
    as (_ & _ & _ & _ & H).
  apply (H sample_elements). vm_compute. reflexivity.
Defined.

End SampleRun.

(** * Further properties of the script *)

(** ** The node table and the coordinate list *)

Lemma node_map_snoc els el :
  node_map (els ++ [el])
  = match el with
    | Node id lon lat => <[id := (lon, lat)]> (node_map els)
    | _ => node_map els
    end.
Proof. unfold node_map. rewrite foldl_app. destruct el; reflexivity. Qed.

(** X1: [node_map] maps an id to the coordinates of the last node element
    that carries it, and has no entry for an id that no node carries. *)
Theorem node_map_lookup_last els id :
  node_map els !! id = last (omap (coords_of id) els).
Proof.
  induction els as [|el els IH] using rev_ind.
  - reflexivity.
  - rewrite node_map_snoc, omap_app. destruct el as [i lon lat| |]; simpl.
    + destruct (decide (i = id)) as [->|Hne]; simpl.
      * rewrite lookup_insert_eq, last_snoc. reflexivity.
      * rewrite lookup_insert_ne, app_nil_r by exact Hne. exact IH.
    + rewrite app_nil_r. exact IH.
    + rewrite app_nil_r. exact IH.
Qed.

(** X2: [coords] keeps the order of the node references, holds exactly
    the coordinates of the references found in the table, and is never
    longer than the reference list; with every reference found it has
    one coordinate per reference. *)
Theorem coords_resolved (nm : gmap Z coord) :
  (forall n1 n2, coords nm (n1 ++ n2) = coords nm n1 ++ coords nm n2)
  /\ (forall nodes,
        coords nm (List.filter (fun nid => bool_decide (is_Some (nm !! nid))) nodes)
        = coords nm nodes)
  /\ (forall nodes c,
        c ∈ coords nm nodes <-> exists nid, nid ∈ nodes /\ nm !! nid = Some c)
  /\ (forall nodes, (length (coords nm nodes) <= length nodes)%nat)
  /\ (forall nodes,
        Forall (fun nid => is_Some (nm !! nid)) nodes ->
        Forall2 (fun nid c => nm !! nid = Some c) nodes (coords nm nodes)).
Proof.
  unfold coords. repeat split.
  - intros n1 n2. apply omap_app.
  - induction nodes as [|nid nodes IH]; simpl; [reflexivity|].
    case_bool_decide as Hs; simpl.
    + destruct Hs as [c Hc]. rewrite Hc. simpl. f_equal. exact IH.
    + destruct (nm !! nid) as [c|] eqn:E; [exfalso; apply Hs; eauto|].
      simpl. exact IH.
  - intros Hc. apply list_elem_of_omap in Hc. exact Hc.
  - intros Hc. apply list_elem_of_omap. exact Hc.
  - intros nodes. induction nodes as [|nid nodes IH]; simpl; [lia|].
    destruct (nm !! nid); simpl.
    + apply le_n_S. exact IH.
    + apply Nat.le_le_succ_r. exact IH.
  - intros nodes Hall. induction Hall as [|nid nodes [c Hc] Hall IH]; simpl.
    + constructor.
    + rewrite Hc. constructor; assumption.
Qed.

(** ** The footprint loop *)

Lemma for_each_returns {A B} (f : A -> result B) l :
  (exists bs, for_each f l = Ok bs) <-> Forall (fun a => exists b, f a = Ok b) l.
Proof.
  split.
  - intros [bs H]. apply for_each_Ok in H.
    induction H as [|a b l bs Hab H IH]; constructor; eauto.
  - intros H. apply for_each_total. intros a Ha.
    rewrite Forall_forall in H. apply H, Ha.
Qed.

(** Unfolding of the loop and of the estimate, by name. *)
Ltac unfold_loop name :=
  lazymatch name with
  | "features" => unfold features
  | "est_height" => unfold est_height
  end.

Section FeatureLoop.

Variable py_float : string -> option float.
Variable py_int : string -> option Z.

Local Abbreviation est_height := (est_height py_float py_int).
Local Abbreviation way_features := (way_features py_float py_int).
Local Abbreviation features := (features py_float py_int).
Local Abbreviation feature_of_way := (feature_of_way py_float py_int).

Lemma way_features_unqualified nm el :
  qualifies nm el = false -> way_features nm el = Ok [].
Proof.
  destruct el as [| nodes [tags|] |]; try reflexivity. simpl.
  destruct (decide _) as [Hb|Hb]; [|reflexivity].
  rewrite bool_decide_eq_true_2 by exact Hb. simpl. intros ->. reflexivity.
Qed.

Lemma way_features_qualified nm nodes tags :
  qualifies nm (Way nodes (Some tags)) = true ->
  way_features nm (Way nodes (Some tags))
  = (geom ← Polygon (coords nm nodes);
     h ← est_height tags;
     Ok [ {| geometry := geom;
             height := h;
             name := default "" (tags !! "name");
             levels := tags !! "building:levels" |} ]).
Proof.
  simpl. intros H. apply andb_true_iff in H as [Hb Hlen].
  apply bool_decide_eq_true_1 in Hb.
  destruct (decide _) as [_|Hn]; [|contradiction]. rewrite Hlen. reflexivity.
Qed.

Lemma way_features_of_way nm el fs :
  way_features nm el = Ok fs ->
  if qualifies nm el then exists f, fs = [f] /\ feature_of_way nm el f
  else fs = [].
Proof.
  destruct (qualifies nm el) eqn:Hq.
  - destruct el as [| nodes [tags|] |]; try discriminate.
    rewrite (way_features_qualified _ _ _ Hq). intros H.
    apply bind_Ok in H as (g & Hg & H).
    apply bind_Ok in H as (h & Hh & [= <-]).
    eexists. split; [reflexivity|]. exists nodes, tags. simpl. auto.
  - rewrite (way_features_unqualified _ _ Hq). intros [= <-]. reflexivity.
Qed.

Lemma for_each_way_features nm l fss :
  for_each (way_features nm) l = Ok fss ->
  Forall2 (feature_of_way nm) (List.filter (qualifies nm) l) (concat fss).
Proof.
  revert fss. induction l as [|el l IH]; simpl; intros fss H.
  - injection H as <-. constructor.
  - apply bind_Ok in H as (fs & Hfs & H).
    apply bind_Ok in H as (fss' & Hfss & [= <-]).
    apply way_features_of_way in Hfs. simpl.
    destruct (qualifies nm el).
    + destruct Hfs as (f & -> & Hf). simpl. constructor; auto.
    + subst fs. simpl. auto.
Qed.

Lemma features_ways els fs :
  features els = Ok fs ->
  Forall2 (feature_of_way (node_map els))
          (List.filter (qualifies (node_map els)) els) fs.
Proof.
  unfold_loop "features". intros H.
  apply bind_Ok in H as (fss & Hfss & [= <-]).
  apply for_each_way_features, Hfss.
Qed.

Lemma for_each_Raise {A B} (f : A -> result B) l e :
  for_each f l = Raise e -> exists a, a ∈ l /\ f a = Raise e.
Proof.
  induction l as [|a l IH]; simpl; [discriminate|].
  destruct (f a) as [b|e'] eqn:Ha; simpl.
  - destruct (for_each f l) as [bs|e'] eqn:Hl; simpl; [discriminate|].
    intros [= <-]. destruct (IH eq_refl) as (a' & Ha' & Hf).
    exists a'. split; [right; exact Ha' | exact Hf].
  - intros [= <-]. exists a. split; [left | exact Ha].
Qed.

Lemma Polygon_Raise cs e :
  Polygon cs = Raise e -> e = ValueError \/ e = GEOSException.
Proof.
  unfold Polygon. destruct (_ <? 4)%nat; [intros [= <-]; auto|].
  destruct (ring_closure _); [intros [= <-]; auto | discriminate].
Qed.

Lemma est_height_Raise tags e : est_height tags = Raise e -> e = ValueError.
Proof.
  unfold_loop "est_height". unfold float_of, int_times_3.
  destruct (truthy (tags !! "height")).
  - destruct (py_float _); [discriminate | intros [= <-]; reflexivity].
  - destruct (truthy (tags !! "building:levels")); [|discriminate].
    destruct (py_int _); [discriminate | intros [= <-]; reflexivity].
Qed.

(** The footprint loop raises [ValueError] or [GEOSException] only. *)
Lemma features_Raise els e :
  features els = Raise e -> e = ValueError \/ e = GEOSException.
Proof.
  unfold_loop "features".
  destruct (for_each _ els) as [fss|e'] eqn:H; simpl; [discriminate|].
  intros [= <-]. apply for_each_Raise in H as (el & _ & H).
  destruct (qualifies (node_map els) el) eqn:Hq.
  - destruct el as [| nodes [tags|] |]; try discriminate.
    rewrite (way_features_qualified _ _ _ Hq) in H.
    destruct (Polygon _) as [g|e0] eqn:Hg; simpl in H.
    + destruct (est_height tags) as [h|e1] eqn:Hh; simpl in H; [discriminate|].
      injection H as <-. left. eapply est_height_Raise, Hh.
    + injection H as <-. eapply Polygon_Raise, Hg.
  - rewrite (way_features_unqualified _ _ Hq) in H. discriminate.
Qed.

(** X3: when the footprint loop returns, [features] holds one feature
    for every way that is tagged as a building and has at least 3
    resolvable node coordinates, in the order of the export and nothing
    else: its ring is [Polygon] of the resolved coordinates, its height
    the estimate from the tags, its name the name tag or the empty
    string, its levels the raw levels tag. *)
Theorem features_follow_ways els fs :
  features els = Ok fs ->
  Forall2 (feature_of_way (node_map els))
          (List.filter (qualifies (node_map els)) els) fs.
Proof. apply features_ways. Qed.

(** X4: the footprint loop returns exactly when every way that passes
    its two guards has a ring that [Polygon] accepts and tags whose
    height estimate does not raise. *)
Theorem features_returns_iff els :
  (exists fs, features els = Ok fs) <->
  Forall (fun el =>
            forall nodes tags,
              el = Way nodes (Some tags) ->
              qualifies (node_map els) el = true ->
              (exists g, Polygon (coords (node_map els) nodes) = Ok g)
              /\ (exists h, est_height tags = Ok h)) els.
Proof.
  unfold_loop "features". set (nm := node_map els).
  transitivity (exists fss, for_each (way_features nm) els = Ok fss).
  { split.
    - intros [fs H]. apply bind_Ok in H as (fss & H & _). eauto.
    - intros [fss ->]. simpl. eauto. }
  rewrite for_each_returns. apply Forall_iff. intros el. split.
  - intros [fs Hfs] nodes tags -> Hq.
    rewrite (way_features_qualified _ _ _ Hq) in Hfs.
    apply bind_Ok in Hfs as (g & Hg & Hfs).
    apply bind_Ok in Hfs as (h & Hh & _). eauto.
  - intros H. destruct (qualifies nm el) eqn:Hq.
    + destruct el as [| nodes [tags|] |]; try discriminate.
      destruct (H nodes tags eq_refl eq_refl) as [[g Hg] [h Hh]].
      rewrite (way_features_qualified _ _ _ Hq), Hg. simpl. rewrite Hh. simpl.
      eauto.
    + rewrite (way_features_unqualified _ _ Hq). eauto.
Qed.

(** X5: the height estimate reads the height and levels tags only, and
    does not read the levels tag when a height tag is taken: adding,
    changing or removing any other tag, or the levels tag beside a taken
    height tag, changes nothing, not even whether it raises. *)
Theorem est_height_reads_two_tags tags :
  (forall k v, k <> "height" -> k <> "building:levels" ->
               est_height (<[k := v]> tags) = est_height tags)
  /\ (forall k, k <> "height" -> k <> "building:levels" ->
                est_height (delete k tags) = est_height tags)
  /\ (truthy (tags !! "height") = true ->
      forall v,
        est_height (<["building:levels" := v]> tags) = est_height tags
        /\ est_height (delete "building:levels" tags) = est_height tags).
Proof.
  unfold_loop "est_height". split; [|split].
  - intros k v Hh Hl. rewrite !lookup_insert_ne by congruence. reflexivity.
  - intros k Hh Hl. rewrite !lookup_delete_ne by congruence. reflexivity.
  - intros Ht v. split.
    + rewrite lookup_insert_ne by discriminate. rewrite Ht. reflexivity.
    + rewrite lookup_delete_ne by discriminate. rewrite Ht. reflexivity.
Qed.

Lemma levels_table :
  forallb (fun n => Bool.eqb (gt_column (PyInt (n * 3)) 10.5%float) (4 <=? n))
          (seqZ (-1000) 2001) = true.
Proof. vm_compute. reflexivity. Qed.

(** X6: with no height tag taken and a levels tag that reads as an
    integer between -1000 and 1000, the estimate is three times the
    levels, and it exceeds the limit of 10.5 exactly from 4 levels up. *)
Theorem levels_flagged_from_four tags s n :
  not_given tags "height" ->
  given tags "building:levels" s ->
  py_int s = Some n ->
  -1000 <= n <= 1000 ->
  est_height tags = Ok (PyInt (n * 3))
  /\ gt_column (PyInt (n * 3)) 10.5%float = (4 <=? n).
Proof.
  intros Hh [Hl Hs] Hp Hn. split.
  - unfold_loop "est_height".
    assert (truthy (tags !! "height") = false) as ->.
    { destruct Hh as [->| ->]; reflexivity. }
    rewrite Hl. simpl.
    assert (String.eqb s "" = false) as -> by (apply String.eqb_neq; exact Hs).
    simpl. unfold int_times_3. rewrite Hp. reflexivity.
  - pose proof levels_table as T. rewrite forallb_forall in T.
    apply Bool.eqb_prop, T, list_elem_of_In, elem_of_seqZ. lia.
Qed.

End FeatureLoop.

(** ** The script end to end *)

Ltac unfold_buildable := unfold buildable.

Section PipelineFacts.

Context {geom : Type}.
Variable within : polygon -> geom -> bool.
Variable buffer : geom -> float -> geom.
Variable file_to_dsm : geom -> geom.
Variable wgs_to_dsm : coord -> coord.
Variable dsm_to_utm : geom -> geom.
Variable utm_to_dsm : geom -> geom.
Variable py_float : string -> option float.
Variable py_int : string -> option Z.

Local Abbreviation zones := (zones file_to_dsm).
Local Abbreviation building_rows := (building_rows wgs_to_dsm).
Local Abbreviation sjoin_within := (sjoin_within within).
Local Abbreviation buildable := (buildable buffer dsm_to_utm utm_to_dsm).
Local Abbreviation classify_buildings :=
  (classify_buildings within buffer file_to_dsm wgs_to_dsm
                      dsm_to_utm utm_to_dsm).
Local Abbreviation pipeline :=
  (pipeline within buffer file_to_dsm wgs_to_dsm dsm_to_utm utm_to_dsm
            py_float py_int).
Local Abbreviation features := (features py_float py_int).
Local Abbreviation est_height := (est_height py_float py_int).
Local Abbreviation feature_of_way := (feature_of_way py_float py_int).

Implicit Types (file : list (@raw_parcel geom)) (z : @parcel geom).

Lemma pipeline_Ok file els out :
  pipeline file els = Ok out <->
  exists fs, features els = Ok fs /\ classify_buildings file fs = Ok out.
Proof. unfold_step "pipeline". apply bind_Ok. Qed.

(** The parcel of [zones] under a label, in terms of the file. *)
Lemma zones_elem file z :
  z ∈ zones file ->
  exists r, file !! index z = Some r
            /\ zone_geometry z = file_to_dsm (raw_geometry r)
            /\ max_height z = 10.5%float /\ setback z = 5%float.
Proof.
  intros Hz. apply list_elem_of_lookup in Hz as (i & Hi).
  rewrite zones_lookup in Hi.
  destruct (file !! i) as [r|] eqn:Hr; simpl in Hi; [|discriminate].
  injection Hi as <-. simpl. eauto.
Qed.

(** The rows of the join are the rows of the result. *)
Lemma classify_buildings_rows file fs out :
  classify_buildings file fs = Ok out ->
  joined <$> out = sjoin_within (building_rows fs) (zones file).
Proof.
  intros H. assert (Hfs : fs <> []).
  { intros ->. revert H. unfold_step "classify_buildings". discriminate. }
  destruct (classify_buildings_total within buffer file_to_dsm wgs_to_dsm
              dsm_to_utm utm_to_dsm file fs Hfs) as (out' & Ho & Hrows).
  congruence.
Qed.

(** X7: every record of the result comes from a way of the export that
    is tagged as a building and has at least 3 resolvable nodes: the
    building is that way's feature with its ring reprojected vertex by
    vertex, and the record's parcel is the row of the file under
    [index_right], whose reprojected geometry the ring is within. *)
Theorem record_provenance file els out rec :
  pipeline file els = Ok out -> rec ∈ out ->
  exists nodes tags f r,
    Way nodes (Some tags) ∈ els
    /\ qualifies (node_map els) (Way nodes (Some tags)) = true
    /\ feature_of_way (node_map els) (Way nodes (Some tags)) f
    /\ building (joined rec) = reproject_feature wgs_to_dsm f
    /\ geometry (building (joined rec))
       = map wgs_to_dsm (close_ring (coords (node_map els) nodes))
    /\ file !! index_right (joined rec) = Some r
    /\ within (geometry (building (joined rec)))
              (file_to_dsm (raw_geometry r)) = true.
Proof.
  intros H Hrec. apply pipeline_Ok in H as (fs & Hfs & H).
  destruct (classify_buildings_record within buffer file_to_dsm wgs_to_dsm
              dsm_to_utm utm_to_dsm file fs out rec H Hrec)
    as (b & z & Hb & Hz & Hw & ->).
  apply list_elem_of_lookup in Hb as (i & Hi).
  rewrite building_rows_lookup in Hi.
  destruct (fs !! i) as [f|] eqn:Hf; simpl in Hi; [|discriminate].
  injection Hi as <-.
  apply features_ways in Hfs.
  destruct (Forall2_lookup_r _ _ _ _ _ Hfs Hf) as (el & Hel & Hway).
  apply list_elem_of_lookup_2, list_elem_of_In, filter_In in Hel as [Hel Hq].
  apply list_elem_of_In in Hel.
  destruct Hway as (nodes & tags & -> & Hg & Hh & Hn & Hl).
  destruct (zones_elem file z Hz) as (r & Hr & Hgeo & _).
  exists nodes, tags, f, r. simpl. rewrite <- Hgeo.
  repeat split; auto.
  - exists nodes, tags. auto.
  - apply Polygon_Ok in Hg as (-> & _). reflexivity.
Qed.

(** X8: when the script returns, no building inside a parcel is left
    out: a way that passes the two guards of the loop and whose
    reprojected ring is within the reprojected geometry of row [i] of
    the file has a record with [index_right] equal to [i]. *)
Theorem no_contained_building_dropped file els out nodes tags i r :
  pipeline file els = Ok out ->
  Way nodes (Some tags) ∈ els ->
  qualifies (node_map els) (Way nodes (Some tags)) = true ->
  file !! i = Some r ->
  within (map wgs_to_dsm (close_ring (coords (node_map els) nodes)))
         (file_to_dsm (raw_geometry r)) = true ->
  exists rec,
    rec ∈ out
    /\ index_right (joined rec) = i
    /\ geometry (building (joined rec))
       = map wgs_to_dsm (close_ring (coords (node_map els) nodes))
    /\ est_height tags = Ok (height (building (joined rec))).
Proof.
  intros H Hel Hq Hr Hw. apply pipeline_Ok in H as (fs & Hfs & H).
  apply features_ways in Hfs.
  assert (Hin : Way nodes (Some tags)
                ∈ List.filter (qualifies (node_map els)) els).
  { apply list_elem_of_In, filter_In. split; [apply list_elem_of_In, Hel|exact Hq]. }
  apply list_elem_of_lookup in Hin as (k & Hk).
  destruct (Forall2_lookup_l _ _ _ _ _ Hfs Hk) as (f & Hf & Hway).
  destruct Hway as (nodes' & tags' & [= <- <-] & Hg & Hh & _).
  apply Polygon_Ok in Hg as (Hg & _).
  apply list_elem_of_lookup_2, list_elem_of_lookup in Hf as (j & Hj).
  set (b := (j, reproject_feature wgs_to_dsm f)).
  set (z := {| index := i; zone_geometry := file_to_dsm (raw_geometry r);
               max_height := Num.f10_5; setback := Num.f5_0 |}).
  assert (Hb : b ∈ building_rows fs).
  { eapply list_elem_of_lookup_2. rewrite building_rows_lookup, Hj. reflexivity. }
  assert (Hz : z ∈ zones file).
  { eapply list_elem_of_lookup_2. rewrite zones_lookup, Hr. reflexivity. }
  assert (Hrow : join b z ∈ sjoin_within (building_rows fs) (zones file)).
  { apply sjoin_within_elem. exists b, z. repeat split; auto.
    simpl. rewrite Hg. exact Hw. }
  rewrite <- (classify_buildings_rows _ _ _ H) in Hrow.
  apply list_elem_of_fmap in Hrow as (rec & Hrec & Hout).
  exists rec. rewrite <- Hrec. simpl. rewrite Hg. auto.
Qed.

(** The selection of STEP 9 is empty for a label no parcel carries. *)
Lemma zone_at_absent (zs : list (@parcel geom)) idx :
  (forall z, z ∈ zs -> index z <> idx) ->
  zone_at (with_buildable_area buffer dsm_to_utm utm_to_dsm zs) idx
  = Raise IndexError.
Proof.
  unfold zone_at, with_buildable_area.
  induction zs as [|z zs IH]; intros H; simpl; [reflexivity|].
  destruct (Nat.eqb_spec (index z) idx) as [E|_].
  - exfalso. apply (H z); [left | exact E].
  - apply IH. intros z' Hz'. apply H. right. exact Hz'.
Qed.

(** X9: the lookup [zones.loc[zones.index == idx].iloc[0]] returns the
    parcel at position [idx] with its buildable area, and raises
    [IndexError] exactly for a label past the end of the store; every
    row of a join with [zones] carries an [index_right] below the number
    of parcels, so the script never ends in [IndexError]. *)
Theorem parcel_lookup_never_fails file :
  (forall idx,
      zone_at (with_buildable_area buffer dsm_to_utm utm_to_dsm (zones file))
              idx
      = match zones file !! idx with
        | Some z => Ok {| zone := z; buildable_area := buildable z |}
        | None => Raise IndexError
        end)
  /\ (forall idx, is_Some (zones file !! idx) <-> (idx < length file)%nat)
  /\ (forall bs r,
        r ∈ sjoin_within bs (zones file) ->
        (index_right r < length file)%nat)
  /\ (forall els, pipeline file els <> Raise IndexError).
Proof.
  split; [|split; [|split]].
  - intros idx. destruct (zones file !! idx) as [z|] eqn:Hz.
    + rewrite <- (zones_index _ _ _ _ Hz).
      apply zone_at_found; [|eapply list_elem_of_lookup_2, Hz].
      intros z' Hz' E. eapply zones_index_inj; eauto.
      eapply list_elem_of_lookup_2, Hz.
    + apply zone_at_absent. intros z Hz' E.
      apply list_elem_of_lookup in Hz' as (i & Hi).
      pose proof (zones_index _ _ _ _ Hi). congruence.
  - intros idx. rewrite zones_lookup, fmap_is_Some. apply lookup_lt_is_Some.
  - intros bs r Hr.
    apply sjoin_within_elem in Hr as (b & z & _ & Hz & _ & ->).
    destruct (zones_elem file z Hz) as (r & Hr & _).
    simpl. eapply lookup_lt_Some, Hr.
  - intros els H. revert H. unfold_step "pipeline".
    destruct (features els) as [fs|e] eqn:Hfs; simpl.
    + destruct fs as [|f fs].
      * unfold_step "classify_buildings". simpl. discriminate.
      * destruct (classify_buildings_total within buffer file_to_dsm
                    wgs_to_dsm dsm_to_utm utm_to_dsm file (f :: fs))
          as (out & -> & _); discriminate.
    + intros [= ->]. apply features_Raise in Hfs as [H|H]; discriminate.
Qed.

(** X10: the two flags and the label of every record, from the inputs
    alone: the height is compared with 10.5, the ring is tested against
    the parcel of the file under [index_right], eroded by 5.0 in the
    metric frame, and the label is [classify_violation] of the two. *)
Theorem record_flags_from_inputs file els out rec :
  pipeline file els = Ok out -> rec ∈ out ->
  exists r,
    file !! index_right (joined rec) = Some r
    /\ violation rec
       = gt_column (height (building (joined rec))) 10.5%float
    /\ boundary_violation rec
       = negb (within (geometry (building (joined rec)))
                (utm_to_dsm
                   (buffer (buffer (dsm_to_utm (file_to_dsm (raw_geometry r)))
                                   (-5)%float)
                           0%float)))
    /\ violation_type rec
       = classify_violation (violation rec) (boundary_violation rec).
Proof.
  intros H Hrec.
  destruct (pipeline_record within buffer file_to_dsm wgs_to_dsm dsm_to_utm
              utm_to_dsm py_float py_int file els out rec H Hrec)
    as (b & z & Hz & Hw & ->).
  destruct (zones_elem file z Hz) as (r & Hr & Hgeo & Hmax & Hset).
  exists r. simpl. unfold_buildable. rewrite Hgeo, Hmax, Hset.
  repeat split; auto.
Qed.

End PipelineFacts.

(** ** The markers of STEP 12 *)

Ltac unfold_marker := unfold circle_marker.

Section MarkerFacts.

Variable centroid : polygon -> coord.
Variable str_height : join_record -> string.

Local Abbreviation circle_marker := (circle_marker centroid str_height).
Local Abbreviation markers := (markers centroid str_height).
Local Abbreviation marker_of := (marker_of centroid str_height).

(** Every label but ["None"] is a key of [color_map]. *)
Lemma circle_marker_flagged row :
  flagged row = true ->
  exists m, circle_marker row = Some m
            /\ color m = legend_color (violation_type row)
            /\ location m
               = ((centroid (geometry (building (joined row)))).2,
                  (centroid (geometry (building (joined row)))).1)
            /\ String.eqb (label (violation_type row)) "None" = false.
Proof.
  unfold flagged. unfold_marker.
  destruct (violation_type row); [discriminate| | |]; intros _;
    (eexists; split; [reflexivity | repeat split; reflexivity]).
Qed.

Lemma markers_skip row rows :
  flagged row = false -> markers (row :: rows) = markers rows.
Proof.
  unfold flagged. simpl. destruct (violation_type row); try discriminate.
  reflexivity.
Qed.

Lemma markers_add row rows :
  flagged row = true ->
  markers (row :: rows)
  = (m ← circle_marker row; ms ← markers rows; Some (m :: ms)).
Proof.
  intros H. destruct (circle_marker_flagged row H) as (m & _ & _ & _ & E).
  simpl. rewrite E. reflexivity.
Qed.

Lemma markers_flagged rows :
  exists ms, markers rows = Some ms
             /\ Forall2 marker_of (List.filter flagged rows) ms.
Proof.
  induction rows as [|row rows (ms & Hms & IH)].
  - exists []. split; [reflexivity | constructor].
  - cbn [List.filter]. destruct (flagged row) eqn:Hf.
    + rewrite (markers_add _ _ Hf).
      destruct (circle_marker_flagged row Hf) as (m & Hm & Hc & Hl & _).
      rewrite Hm, Hms. simpl. exists (m :: ms). split; [reflexivity|].
      constructor; [|exact IH]. split; [exact Hm|]. auto.
    + rewrite (markers_skip _ _ Hf). exists ms. auto.
Qed.

(** X11: the marker loop never raises the [KeyError] of
    [color_map[...]]: it adds one marker for every row whose label is
    not ["None"], in row order and none for the others, placed at the
    centroid with its ordinates swapped (y first) and coloured as the
    legend says: yellow for Height, orange for Boundary, red for Both. *)
Theorem markers_for_labelled_rows rows :
  exists ms,
    markers rows = Some ms
    /\ Forall2 (fun row m =>
                  color m = legend_color (violation_type row)
                  /\ location m
                     = ((centroid (geometry (building (joined row)))).2,
                        (centroid (geometry (building (joined row)))).1)
                  /\ radius m = 6)
               (List.filter (fun row => negb (String.eqb
                                                (label (violation_type row))
                                                "None")) rows)
               ms.
Proof.
  destruct (markers_flagged rows) as (ms & Hms & H).
  exists ms. split; [exact Hms|].
  assert (E : List.filter (fun row => negb (String.eqb
                                              (label (violation_type row))
                                              "None")) rows
              = List.filter flagged rows).
  { apply filter_ext. intros row. unfold flagged.
    destruct (violation_type row); reflexivity. }
  rewrite E. eapply Forall2_impl; [exact H|].
  intros row m (Hm & Hc & Hl). repeat split; auto.
  revert Hm. unfold_marker.
  destruct (color_map !! _); [|discriminate]. intros [= <-]. reflexivity.
Qed.

End MarkerFacts.

(** ** From the inputs to the map *)

Section MapFacts.

Context {geom : Type}.
Variable within : polygon -> geom -> bool.
Variable buffer : geom -> float -> geom.
Variable file_to_dsm : geom -> geom.
Variable wgs_to_dsm : coord -> coord.
Variable dsm_to_utm : geom -> geom.
Variable utm_to_dsm : geom -> geom.
Variable py_float : string -> option float.
Variable py_int : string -> option Z.
Variable centroid : polygon -> coord.
Variable str_height : join_record -> string.

Local Abbreviation pipeline :=
  (pipeline within buffer file_to_dsm wgs_to_dsm dsm_to_utm utm_to_dsm
            py_float py_int).
Local Abbreviation markers := (markers centroid str_height).

(** X12: on the records of the script, a record gets a marker exactly
    when one of its two flags is true, so a compliant building is never
    drawn; the marker is red when both flags are true, yellow when only
    the height flag is, orange when only the boundary flag is. *)
Theorem markers_follow_flags (file : list (@raw_parcel geom)) els out :
  pipeline file els = Ok out ->
  exists ms,
    markers out = Some ms
    /\ Forall2 (fun rec m =>
                  color m = if violation rec && boundary_violation rec
                            then "red"
                            else if violation rec then "yellow" else "orange")
               (List.filter (fun rec => violation rec || boundary_violation rec)
                            out)
               ms.
Proof.
  intros H.
  assert (Hlab : forall rec, rec ∈ out ->
                 violation_type rec
                 = classify_violation (violation rec) (boundary_violation rec)).
  { intros rec Hrec.
    destruct (pipeline_record within buffer file_to_dsm wgs_to_dsm dsm_to_utm
                utm_to_dsm py_float py_int file els out rec H Hrec)
      as (b & z & _ & _ & ->). reflexivity. }
  destruct (markers_flagged centroid str_height out) as (ms & Hms & HF).
  exists ms. split; [exact Hms|].
  assert (E : List.filter (fun rec => violation rec || boundary_violation rec) out
              = List.filter flagged out).
  { apply filter_ext_in. intros rec Hrec. unfold flagged.
    rewrite (Hlab rec) by (apply list_elem_of_In, Hrec).
    destruct (violation rec), (boundary_violation rec); reflexivity. }
  rewrite E. apply Forall2_same_length_lookup in HF as [Hlen HF].
  apply Forall2_same_length_lookup. split; [exact Hlen|].
  intros i rec m Hrec Hm. destruct (HF i rec m Hrec Hm) as (_ & Hc & _).
  rewrite Hc. apply list_elem_of_lookup_2, list_elem_of_In, filter_In in Hrec
    as [Hrec Hfl].
  revert Hfl. unfold flagged.
  rewrite (Hlab rec) by (apply list_elem_of_In, Hrec).
  destruct (violation rec), (boundary_violation rec);
    try reflexivity; discriminate.
Qed.

End MapFacts.

(** ** More on the height map *)

Lemma is_nan_spec x : PrimFloat.is_nan x = true <-> Prim2SF x = S754_nan.
Proof.
  unfold PrimFloat.is_nan. rewrite FloatAxioms.eqb_spec. unfold SFeqb.
  destruct (Prim2SF x) as [sx|sx| |sx mx ex]; simpl.
  - split; discriminate.
  - destruct sx; split; discriminate.
  - split; reflexivity.
  - rewrite Z.compare_refl.
    replace (PosDef.Pos.compare_cont Eq mx mx) with Eq
      by (symmetry; apply Pos.compare_cont_refl).
    destruct sx; split; discriminate.
Qed.

Lemma sub_nan s t :
  Prim2SF s = S754_nan \/ Prim2SF t = S754_nan ->
  Prim2SF (s - t)%float = S754_nan.
Proof.
  rewrite FloatAxioms.sub_spec. unfold SF64sub.
  intros [-> | ->]; [reflexivity|].
  destruct (Prim2SF s); reflexivity.
Qed.

Module RasterMore.
Import Raster.

Lemma height_px_nan s t :
  PrimFloat.is_nan s || PrimFloat.is_nan t = true ->
  PrimFloat.is_nan (height_px s t) = true.
Proof.
  intros H. apply orb_true_iff in H.
  assert (Hn : Prim2SF (s - t)%float = S754_nan).
  { apply sub_nan. destruct H as [H|H]; apply is_nan_spec in H; auto. }
  unfold height_px, clean, Num.lt.
  rewrite FloatAxioms.ltb_spec, Hn. simpl. apply is_nan_spec, Hn.
Qed.

(** X13: a NaN in either array stays a NaN in the height map: the
    cleaning of negative values does not turn a missing value into a
    height of zero. *)
Theorem nan_pixel_propagates dsm_array resampled_dtm i j s t :
  px dsm_array i j = Some s ->
  px resampled_dtm i j = Some t ->
  PrimFloat.is_nan s || PrimFloat.is_nan t = true ->
  exists h, px (height_map dsm_array resampled_dtm) i j = Some h
            /\ PrimFloat.is_nan h = true
            /\ Num.eq h 0%float = false.
Proof.
  intros Hs Ht Hn. exists (height_px s t).
  unfold height_map. rewrite RasterFacts.px_zip_rows, Hs, Ht.
  pose proof (height_px_nan s t Hn) as Hh.
  repeat split; [exact Hh|].
  apply is_nan_spec in Hh. unfold Num.eq.
  rewrite FloatAxioms.eqb_spec, Hh. reflexivity.
Qed.

Lemma clean_clean h : clean (clean h) = clean h.
Proof.
  unfold clean. destruct (Num.lt h 0%float) eqn:E; [reflexivity|].
  rewrite E. reflexivity.
Qed.

Lemma zip_row_length f r1 : forall r2,
  length r1 = length r2 -> length (zip_row f r1 r2) = length r1.
Proof.
  induction r1 as [|a r1 IH]; intros [|b r2] H; simpl in *;
    try reflexivity; try discriminate.
  f_equal. apply IH. lia.
Qed.

Lemma map_clean_zip_row r1 : forall r2,
  map clean (zip_row height_px r1 r2) = zip_row height_px r1 r2.
Proof.
  induction r1 as [|a r1 IH]; intros [|b r2]; simpl; try reflexivity.
  unfold height_px at 1. rewrite clean_clean, IH. reflexivity.
Qed.

(** X14: on two arrays of one shape the height map has that shape, row
    by row; and cleaning it again changes nothing. *)
Theorem height_map_shape_and_recleaning dsm_array resampled_dtm :
  (Forall2 (fun r1 r2 : list float => length r1 = length r2)
           dsm_array resampled_dtm ->
   Forall2 (fun r h : list float => length h = length r)
           dsm_array (height_map dsm_array resampled_dtm))
  /\ map (map clean) (height_map dsm_array resampled_dtm)
     = height_map dsm_array resampled_dtm.
Proof.
  unfold height_map. split.
  - intros H. induction H as [|r1 r2 a1 a2 Hr H IH]; simpl; constructor.
    + apply zip_row_length, Hr.
    + exact IH.
  - revert resampled_dtm.
    induction dsm_array as [|r1 a1 IH]; intros [|r2 a2]; simpl;
      try reflexivity.
    rewrite map_clean_zip_row, IH. reflexivity.
Qed.

End RasterMore.

(** ** The further properties on the sample run *)

Module SampleMore.
Import Flat.

(** X3 on the sample export: seven ways, five features. *)
Lemma features_follow_ways_witness :
  Forall2 (feature_of_way dec_float dec_int (node_map sample_elements))
          (List.filter (qualifies (node_map sample_elements)) sample_elements)
          Draw.sample_features
  /\ length Draw.sample_features = 5%nat.
Proof.
  split; [|vm_compute; reflexivity].
  apply (features_follow_ways dec_float dec_int sample_elements).
  vm_compute. reflexivity.
Defined.

(** X6 on a way of four levels. *)
Lemma levels_flagged_from_four_witness :
  est_height dec_float dec_int (building_tags [("building:levels", "4")])
  = Ok (PyInt (4 * 3))
  /\ gt_column (PyInt (4 * 3)) 10.5%float = (4 <=? 4).
Proof.
  apply (levels_flagged_from_four dec_float dec_int
           (building_tags [("building:levels", "4")]) "4" 4).
  - left. vm_compute. reflexivity.
  - split; [vm_compute; reflexivity | discriminate].
  - vm_compute. reflexivity.
  - lia.
Defined.

(** X7 on the records of the sample run. *)
Lemma record_provenance_witness :
  Forall (fun rec =>
            exists nodes tags,
              Way nodes (Some tags) ∈ sample_elements
              /\ geometry (building (joined rec))
                 = map same_coord
                       (close_ring (coords (node_map sample_elements) nodes)))
         sample_records.
Proof.
  apply Forall_forall. intros rec Hrec.
  destruct (record_provenance
              within buffer same_geom same_coord same_geom same_geom
              dec_float dec_int sample_file sample_elements sample_records rec)
    as (nodes & tags & f & r & Hel & _ & _ & _ & Hg & _).
  - vm_compute. reflexivity.
  - exact Hrec.
  - exists nodes, tags. auto.
Defined.

(** X8 on the second building of the sample and parcel 0. *)
Lemma no_contained_building_dropped_witness :
  exists rec,
    rec ∈ sample_records
    /\ index_right (joined rec) = 0%nat
    /\ est_height dec_float dec_int (building_tags [("height", "12")])
       = Ok (height (building (joined rec))).
Proof.
  destruct (no_contained_building_dropped
              within buffer same_geom same_coord same_geom same_geom
              dec_float dec_int sample_file sample_elements sample_records
              [5; 6; 7; 8; 5] (building_tags [("height", "12")]) 0%nat
              {| raw_geometry := Some (Box 0 0 100 100);
                 raw_max_height := Some (PyInt 30);
                 raw_setback := Some (PyFloat 1) |})
    as (rec & Hrec & Hi & _ & Hh).
  - vm_compute. reflexivity.
  - apply list_elem_of_In. unfold sample_elements.
    do 15 right. left. reflexivity.
  - vm_compute. reflexivity.
  - reflexivity.
  - vm_compute. reflexivity.
  - exists rec. auto.
Defined.

(** X10 on the records of the sample run. *)
Lemma record_flags_from_inputs_witness :
  Forall (fun rec =>
            exists r,
              sample_file !! index_right (joined rec) = Some r
              /\ violation rec
                 = gt_column (height (building (joined rec))) 10.5%float
              /\ violation_type rec
                 = classify_violation (violation rec) (boundary_violation rec))
         sample_records.
Proof.
  apply Forall_forall. intros rec Hrec.
  destruct (record_flags_from_inputs
              within buffer same_geom same_coord same_geom same_geom
              dec_float dec_int sample_file sample_elements sample_records rec)
    as (r & Hr & Hv & _ & Ht).
  - vm_compute. reflexivity.
  - exact Hrec.
  - exists r. auto.
Defined.

(** X12 on the sample run: six records, four markers. *)
Lemma markers_follow_flags_witness :
  exists ms,
    markers Draw.centroid Draw.str_height sample_records = Some ms
    /\ Forall2 (fun rec m =>
                  color m = if violation rec && boundary_violation rec
                            then "red"
                            else if violation rec then "yellow" else "orange")
               (List.filter (fun rec => violation rec || boundary_violation rec)
                            sample_records)
               ms.
Proof.
  apply (markers_follow_flags
           within buffer same_geom same_coord same_geom same_geom
           dec_float dec_int Draw.centroid Draw.str_height
           sample_file sample_elements sample_records).
  vm_compute. reflexivity.
Defined.

(** X13 on a clip whose surface has a missing pixel. *)
Lemma nan_pixel_propagates_witness :
  exists h,
    Raster.px (Raster.height_map [[nan; 7]]%float [[3; 9]]%float) 0 0 = Some h
    /\ PrimFloat.is_nan h = true
    /\ Num.eq h 0%float = false.
Proof.
  apply (RasterMore.nan_pixel_propagates
           [[nan; 7]]%float [[3; 9]]%float 0 0 nan 3%float);
    reflexivity.
Defined.

(** X14 on a 2 x 2 clip. *)
Lemma height_map_shape_and_recleaning_witness :
  Forall2 (fun r h : list float => length h = length r)
          [[3; 7]; [0; 2]]%float
          (Raster.height_map [[3; 7]; [0; 2]]%float [[1; 9]; [0; 2]]%float).
Proof.
  apply (RasterMore.height_map_shape_and_recleaning
           [[3; 7]; [0; 2]]%float [[1; 9]; [0; 2]]%float).
  repeat constructor.
Defined.

End SampleMore.

(** ** Rows and labels *)

Section RowFacts.

Context {geom : Type}.
Variable within : polygon -> geom -> bool.
Variable buffer : geom -> float -> geom.
Variable file_to_dsm : geom -> geom.
Variable wgs_to_dsm : coord -> coord.
Variable dsm_to_utm : geom -> geom.
Variable utm_to_dsm : geom -> geom.
Variable py_float : string -> option float.
Variable py_int : string -> option Z.

Local Abbreviation zones := (zones file_to_dsm).
Local Abbreviation building_rows := (building_rows wgs_to_dsm).
Local Abbreviation sjoin_within := (sjoin_within within).
Local Abbreviation pipeline :=
  (pipeline within buffer file_to_dsm wgs_to_dsm dsm_to_utm utm_to_dsm
            py_float py_int).

Lemma zones_NoDup (file : list (@raw_parcel geom)) :
  NoDup (index <$> zones file).
Proof.
  apply NoDup_alt. intros i j x. rewrite !list_lookup_fmap.
  destruct (zones file !! i) as [z|] eqn:Hi; [|discriminate].
  destruct (zones file !! j) as [z'|] eqn:Hj; [|discriminate].
  apply zones_index in Hi, Hj. simpl. congruence.
Qed.

Lemma matches_keys_NoDup (b : nat * feature) (zs : list (@parcel geom)) :
  NoDup (index <$> zs) ->
  NoDup (row_key <$> map (join b) (matches within b zs)).
Proof.
  unfold matches. induction zs as [|z zs IH]; simpl; intros Hnd.
  - constructor.
  - apply NoDup_cons in Hnd as [Hz Hnd].
    destruct (within _ _); [|apply IH, Hnd].
    simpl. constructor; [|apply IH, Hnd].
    intros Hin. apply Hz.
    apply list_elem_of_fmap in Hin as (r & Hr & Hin).
    apply list_elem_of_In, in_map_iff in Hin as (z' & <- & Hz').
    apply filter_In in Hz' as [Hz' _].
    injection Hr as ->. apply list_elem_of_fmap_2, list_elem_of_In, Hz'.
Qed.

Lemma sjoin_keys_NoDup bs (zs : list (@parcel geom)) :
  NoDup bs.*1 -> NoDup (index <$> zs) ->
  NoDup (row_key <$> sjoin_within bs zs).
Proof.
  unfold_step "sjoin_within". intros Hbs Hzs.
  induction bs as [|b bs IH]; simpl; [constructor|].
  apply NoDup_cons in Hbs as [Hb Hbs].
  rewrite fmap_app. apply NoDup_app. split; [|split].
  - apply matches_keys_NoDup, Hzs.
  - intros k Hk Hk'. apply Hb.
    apply list_elem_of_fmap in Hk as (r & -> & Hr).
    apply list_elem_of_In, in_map_iff in Hr as (z & <- & _).
    apply list_elem_of_fmap in Hk' as (r' & Hr' & Hin).
    apply list_elem_of_In, in_flat_map in Hin as (b' & Hb' & Hin).
    apply in_map_iff in Hin as (z' & <- & _).
    injection Hr' as -> _.
    apply list_elem_of_fmap_2, list_elem_of_In, Hb'.
  - apply IH, Hbs.
Qed.

(** X15: no two records of the result carry the same pair of building
    label and parcel label: a building appears at most once per
    parcel. *)
Theorem one_record_per_pair (file : list (@raw_parcel geom)) els out :
  pipeline file els = Ok out ->
  NoDup ((fun rec => (left_index (joined rec), index_right (joined rec)))
           <$> out).
Proof.
  intros H. apply pipeline_Ok in H as (fs & _ & H).
  apply classify_buildings_rows in H.
  change (fun rec => (left_index (joined rec), index_right (joined rec)))
    with (row_key ∘ joined).
  rewrite list_fmap_compose, H.
  apply sjoin_keys_NoDup; [apply building_rows_NoDup | apply zones_NoDup].
Qed.

(** X16: a building whose way takes neither a height tag nor a levels
    tag is never a height violation: a record with [violation] true comes
    from a way with one of the two tags, present and not empty. *)
Theorem height_violation_needs_a_tag (file : list (@raw_parcel geom))
        els out rec :
  pipeline file els = Ok out -> rec ∈ out -> violation rec = true ->
  exists nodes tags s,
    Way nodes (Some tags) ∈ els
    /\ est_height py_float py_int tags = Ok (height (building (joined rec)))
    /\ (given tags "height" s \/ given tags "building:levels" s).
Proof.
  intros H Hrec Hv.
  pose proof H as H'. apply pipeline_Ok in H' as (fs & Hfs & Hc).
  destruct (classify_buildings_record within buffer file_to_dsm wgs_to_dsm
              dsm_to_utm utm_to_dsm file fs out rec Hc Hrec)
    as (b & z & Hb & Hz & Hw & ->).
  apply list_elem_of_lookup in Hb as (i & Hi).
  rewrite building_rows_lookup in Hi.
  destruct (fs !! i) as [f|] eqn:Hf; simpl in Hi; [|discriminate].
  injection Hi as <-.
  apply features_ways in Hfs.
  destruct (Forall2_lookup_r _ _ _ _ _ Hfs Hf) as (el & Hel & Hway).
  apply list_elem_of_lookup_2, list_elem_of_In, filter_In in Hel as [Hel _].
  apply list_elem_of_In in Hel.
  destruct Hway as (nodes & tags & -> & _ & Hh & _).
  simpl in Hv. unfold gt_column in Hv.
  destruct (truthy (tags !! "height")) eqn:Hth.
  - apply truthy_given in Hth as (s & Hs & _).
    exists nodes, tags, s. simpl. auto.
  - destruct (truthy (tags !! "building:levels")) eqn:Htl.
    + apply truthy_given in Htl as (s & Hs & _).
      exists nodes, tags, s. simpl. auto.
    + exfalso. revert Hh. unfold_loop "est_height". rewrite Hth, Htl.
      intros [= Hnone]. rewrite <- Hnone in Hv. discriminate.
Qed.

End RowFacts.

Module SampleRows.
Import Flat.

(** X15 on the sample run. *)
Lemma one_record_per_pair_witness :
  NoDup ((fun rec => (left_index (joined rec), index_right (joined rec)))
           <$> sample_records).
Proof.
  apply (one_record_per_pair
           within buffer same_geom same_coord same_geom same_geom
           dec_float dec_int sample_file sample_elements sample_records).
  vm_compute. reflexivity.
Defined.

(** X16 on the height violations of the sample run. *)
Lemma height_violation_needs_a_tag_witness :
  Forall (fun rec =>
            violation rec = true ->
            exists nodes tags s,
              Way nodes (Some tags) ∈ sample_elements
              /\ (given tags "height" s \/ given tags "building:levels" s))
         sample_records.
Proof.
  apply Forall_forall. intros rec Hrec Hv.
  destruct (height_violation_needs_a_tag
              within buffer same_geom same_coord same_geom same_geom
              dec_float dec_int sample_file sample_elements sample_records rec)
    as (nodes & tags & s & Hel & _ & Hs).
  - vm_compute. reflexivity.
  - exact Hrec.
  - exact Hv.
  - exists nodes, tags, s. auto.
Defined.

End SampleRows.
